(** * AzGit: bootstrap of the identity store and the [list] command

    A shallow embedding of [cmd/azgit/main.go].  The program is a short
    sequence of file-system calls, calls into an ini library and writes to
    standard output, so it is modelled in a small state monad over a
    [World] made of the process environment (the home directory), a file
    system, the chunks written to standard output and the log of library
    calls the program has made.  Go [error] results are ordinary values
    ([option error]); the one [panic] of the program ([userHomeDir]) is a
    separate outcome of the monad. *)

From Stdlib Require Import String Ascii List Bool Lia.
From stdpp Require Import gmap strings list.
Import ListNotations.

Local Open Scope string_scope.
Local Open Scope list_scope.

(** ** Strings and formatting *)

Definition nl : string := String "010"%char EmptyString.
Definition tab : string := String "009"%char EmptyString.

(** [fmt.Sprintf] for the verbs the program uses: every [%s] is replaced by
    the next operand; a verb with no operand left prints Go's
    [%!s(MISSING)]. *)
Fixpoint Sprintf (format : string) (args : list string) : string :=
  match format with
  | EmptyString => EmptyString
  | String "%"%char (String "s"%char rest) =>
      match args with
      | a :: args' => a +:+ Sprintf rest args'
      | [] => "%!s(MISSING)" +:+ Sprintf rest []
      end
  | String c rest => String c (Sprintf rest args)
  end.

(** ** The ini library, as the program uses it *)

Module Ini.

(** Modelled from the spec: the ini library (gopkg.in/ini.v1) is an
    external dependency and not among the sources.  The spec describes
    it as an ordered mapping from section names to mappings from keys to
    strings, where reading an absent key yields the empty string.  A
    file is the list of its sections in declaration order and a section
    the list of its keys in declaration order.  Reading a section or a
    key that is absent also adds it, empty, to the file object in memory;
    the program never saves a file object it has read from, so reads are
    modelled as pure. *)
Record IniSection := { sec_name : string; sec_keys : list (string * string) }.

Definition IniFile := list IniSection.

Definition DefaultSection : string := "DEFAULT".

Fixpoint lookupKey (k : string) (kvs : list (string * string)) : option string :=
  match kvs with
  | [] => None
  | (k', v) :: rest => if String.eqb k' k then Some v else lookupKey k rest
  end.

(** [section.Key(k).String()]: the value of the key, the empty string
    when the section has no such key. *)
Definition Key_String (s : IniSection) (k : string) : string :=
  match lookupKey k (sec_keys s) with
  | Some v => v
  | None => ""
  end.

Definition HasKey (s : IniSection) (k : string) : bool :=
  match lookupKey k (sec_keys s) with Some _ => true | None => false end.

Fixpoint setKey (k v : string) (kvs : list (string * string)) : list (string * string) :=
  match kvs with
  | [] => [(k, v)]
  | (k', v') :: rest =>
      if String.eqb k' k then (k', v) :: rest else (k', v') :: setKey k v rest
  end.

(** [section.NewKey(k, v)]: appends the key, or overwrites the value of
    an existing one.  An empty key name is refused; the program discards
    the error result, so only the section after the call is returned. *)
Definition Section_NewKey (k v : string) (s : IniSection) : IniSection :=
  if String.eqb k "" then s
  else {| sec_name := sec_name s; sec_keys := setKey k v (sec_keys s) |}.

Fixpoint findSection (name : string) (f : IniFile) : option IniSection :=
  match f with
  | [] => None
  | s :: rest => if String.eqb (sec_name s) name then Some s else findSection name rest
  end.

(** [ini.Empty()]: a file object always starts with the library's
    unnamed section, called [DEFAULT], holding no key. *)
Definition Empty : IniFile := [ {| sec_name := DefaultSection; sec_keys := [] |} ].

(** [file.Sections()]: all sections, in declaration order. *)
Definition Sections (f : IniFile) : list IniSection := f.

(** [file.Section(name)]: the section of that name, a fresh empty one
    when the file has none. *)
Definition File_Section (f : IniFile) (name : string) : IniSection :=
  match findSection name f with
  | Some s => s
  | None => {| sec_name := name; sec_keys := [] |}
  end.

(** [file.NewSection(name)]: an empty name is an error, an existing
    section is returned as it is, a new one is appended.  The result is
    the file after the call and the handle of the section in it (its
    name: a [*Section] points into the file). *)
Definition NewSection (name : string) (f : IniFile) : string + (IniFile * string) :=
  if String.eqb name "" then inl "empty section name"
  else match findSection name f with
       | Some _ => inr (f, name)
       | None => inr (f ++ [ {| sec_name := name; sec_keys := [] |} ], name)
       end.

(** [NewKey] through a section handle: the section is updated inside
    the file it belongs to. *)
Fixpoint File_NewKey (handle k v : string) (f : IniFile) : IniFile :=
  match f with
  | [] => []
  | s :: rest =>
      if String.eqb (sec_name s) handle then Section_NewKey k v s :: rest
      else s :: File_NewKey handle k v rest
  end.

(** The text format itself is left to the library: [ini_parse] is what
    [ini.Load] makes of the bytes of a file (an error message for
    malformed input), [ini_write] the bytes [SaveTo] produces. *)
Class Codec := {
  ini_parse : string -> string + IniFile;
  ini_write : IniFile -> string
}.

End Ini.
Export Ini.

(** ** Errors *)

Inductive Errno := ENOENT | EACCES | ENOTDIR | EISDIR | EEXIST | EIO.

(** A clean absolute path, as the list of its components. *)
Abbreviation path := (list string).

Inductive error :=
| PathError (op : string) (p : path) (e : Errno)   (* *fs.PathError *)
| IniError (msg : string)                          (* an error of the ini library *)
| Errorf (context : string) (cause : error).       (* fmt.Errorf(context + "%w", cause) *)

(** [os.IsNotExist]: looks at the error itself (and inside a [PathError]),
    not through [fmt.Errorf] wrappers; a nil error is not "not exist". *)
Definition os_IsNotExist (err : option error) : bool :=
  match err with
  | Some (PathError _ _ ENOENT) => true
  | _ => false
  end.

#[global] Instance Errno_eq_dec : EqDecision Errno.
Proof. solve_decision. Defined.

#[global] Instance error_eq_dec : EqDecision error.
Proof. solve_decision. Defined.

(** ** The file system *)

Inductive node := Dir | RegFile (data : string).

#[global] Instance node_eq_dec : EqDecision node.
Proof. solve_decision. Defined.

(** [nodes] maps a path to what is there (the root is always a
    directory); a system call on a path in [eacces] fails with [EACCES];
    a write to a path in [eio] fails after the file was opened and
    truncated. *)
Record FS := {
  nodes : gmap path node;
  eacces : gset path;
  eio : gset path
}.

Definition fs_node (f : FS) (p : path) : option node :=
  match p with
  | [] => Some Dir
  | _ => nodes f !! p
  end.

Definition set_node (p : path) (n : node) (f : FS) : FS :=
  {| nodes := <[p := n]> (nodes f); eacces := eacces f; eio := eio f |}.

Definition parent (p : path) : path := removelast p.

(** The proper ancestors of a path, from the root down. *)
Definition ancestors (p : path) : list path :=
  map (fun n => firstn n p) (seq 0 (length p)).

Definition is_regular (o : option node) : bool :=
  match o with Some (RegFile _) => true | _ => false end.

(** Path resolution: permission first, then a regular file in the place
    of a directory on the way. *)
Definition resolve (f : FS) (p : path) : option Errno :=
  if decide (p ∈ eacces f) then Some EACCES
  else if existsb (fun q => is_regular (fs_node f q)) (ancestors p) then Some ENOTDIR
  else None.

Definition Stat (p : path) (f : FS) : Errno + node :=
  match resolve f p with
  | Some e => inl e
  | None => match fs_node f p with
            | Some n => inr n
            | None => inl ENOENT
            end
  end.

Definition Mkdir (p : path) (f : FS) : Errno + FS :=
  match resolve f p with
  | Some e => inl e
  | None =>
      match fs_node f p with
      | Some _ => inl EEXIST
      | None =>
          match fs_node f (parent p) with
          | Some Dir => inr (set_node p Dir f)
          | Some (RegFile _) => inl ENOTDIR
          | None => inl ENOENT
          end
      end
  end.

(** [os.MkdirAll], by recursion on the path read from its last component:
    a directory that is there is success, a file is [ENOTDIR]; otherwise
    the parent is made first (unless the path is the root or directly
    under it), then the directory itself, and a failing [Mkdir] is
    forgiven when the directory turns out to exist. *)
Fixpoint MkdirAll_rev (rp : list string) (f : FS) : error + FS :=
  let p := rev rp in
  match Stat p f with
  | inr Dir => inr f
  | inr (RegFile _) => inl (PathError "mkdir" p ENOTDIR)
  | inl _ =>
      let made_parent :=
        match rp with
        | _ :: ((_ :: _) as rp') => MkdirAll_rev rp' f
        | _ => inr f
        end in
      match made_parent with
      | inl e => inl e
      | inr f' =>
          match Mkdir p f' with
          | inr f'' => inr f''
          | inl e =>
              match Stat p f' with
              | inr Dir => inr f'
              | _ => inl (PathError "mkdir" p e)
              end
          end
      end
  end.

Definition MkdirAll (p : path) (f : FS) : error + FS := MkdirAll_rev (rev p) f.

(** Opening a file and reading all of it. *)
Definition ReadFile (p : path) (f : FS) : error + string :=
  match resolve f p with
  | Some e => inl (PathError "open" p e)
  | None =>
      match fs_node f p with
      | None => inl (PathError "open" p ENOENT)
      | Some Dir => inl (PathError "read" p EISDIR)
      | Some (RegFile data) => inr data
      end
  end.

(** [ioutil.WriteFile]: create or truncate, write, close. *)
Definition WriteFile (p : path) (data : string) (f : FS) : option error * FS :=
  match resolve f p with
  | Some e => (Some (PathError "open" p e), f)
  | None =>
      match fs_node f p with
      | Some Dir => (Some (PathError "open" p EISDIR), f)
      | _ =>
          match fs_node f (parent p) with
          | Some Dir =>
              if decide (p ∈ eio f)
              then (Some (PathError "write" p EIO), set_node p (RegFile "") f)
              else (None, set_node p (RegFile data) f)
          | Some (RegFile _) => (Some (PathError "open" p ENOTDIR), f)
          | None => (Some (PathError "open" p ENOENT), f)
          end
      end
  end.

(** ** The world and the monad of the program *)

(** The library calls the program makes, in the order it makes them. *)
Inductive call :=
| call_Stat (p : path)
| call_MkdirAll (p : path)
| call_Load (p : path)
| call_SaveTo (p : path).

#[global] Instance call_eq_dec : EqDecision call.
Proof. solve_decision. Defined.

Record World := {
  env_home : option path;     (* what os.UserHomeDir finds, if anything *)
  fsys : FS;
  stdout : list string;       (* the writes to standard output, oldest first *)
  calls : list call
}.

Inductive outcome (A : Type) :=
| Done (a : A) (w : World)
| Panic (msg : string).
Arguments Done {A} a w.
Arguments Panic {A} msg.

Definition M (A : Type) : Type := World -> outcome A.

Definition ret {A} (a : A) : M A := fun w => Done a w.

Definition bind {A B} (m : M A) (k : A -> M B) : M B :=
  fun w => match m w with
           | Done a w' => k a w'
           | Panic msg => Panic msg
           end.

Declare Scope prog_scope.
Delimit Scope prog_scope with prog.
Notation "x <- m ;; k" := (bind m (fun x => k))
  (at level 100, m at next level, right associativity) : prog_scope.
Notation "m ;;; k" := (bind m (fun _ => k))
  (at level 100, right associativity) : prog_scope.
Local Open Scope prog_scope.

Definition panic {A} (msg : string) : M A := fun _ => Panic msg.

Definition with_call (c : call) (w : World) : World :=
  {| env_home := env_home w; fsys := fsys w;
     stdout := stdout w; calls := calls w ++ [c] |}.

Definition with_fs (f : FS) (w : World) : World :=
  {| env_home := env_home w; fsys := f; stdout := stdout w; calls := calls w |}.

Definition with_write (chunk : string) (w : World) : World :=
  {| env_home := env_home w; fsys := fsys w;
     stdout := stdout w ++ [chunk]; calls := calls w |}.

Definition with_writes (chunks : list string) (w : World) : World :=
  fold_left (fun w' chunk => with_write chunk w') chunks w.

Definition log (c : call) : M unit := fun w => Done tt (with_call c w).

Definition get_fs : M FS := fun w => Done (fsys w) w.

Definition put_fs (f : FS) : M unit := fun w => Done tt (with_fs f w).

(** [fmt.Println(s)]: one write of [s] and a newline. *)
Definition fmt_Println (s : string) : M unit :=
  fun w => Done tt (with_write (s +:+ nl) w).

Fixpoint for_each {A} (l : list A) (body : A -> M unit) : M unit :=
  match l with
  | [] => ret tt
  | x :: rest => body x ;;; for_each rest body
  end.

Definition os_Stat (p : path) : M (option error) :=
  log (call_Stat p) ;;;
  f <- get_fs ;;
  ret (match Stat p f with
       | inr _ => None
       | inl e => Some (PathError "stat" p e)
       end).

Definition os_MkdirAll (p : path) : M (option error) :=
  log (call_MkdirAll p) ;;;
  f <- get_fs ;;
  match MkdirAll p f with
  | inl e => ret (Some e)
  | inr f' => put_fs f' ;;; ret None
  end.

(** ** The program *)

Section Program.

Context `{!Codec}.

(** What [ini.Load(path)] yields on a file system: the file is read, then
    parsed. *)
Definition loadFile (p : path) (f : FS) : error + IniFile :=
  match ReadFile p f with
  | inl e => inl e
  | inr data =>
      match ini_parse data with
      | inl msg => inl (IniError msg)
      | inr cfg => inr cfg
      end
  end.

Definition ini_Load (p : path) : M (error + IniFile) :=
  log (call_Load p) ;;;
  f <- get_fs ;;
  ret (loadFile p f).

(** [file.SaveTo(path)]: render the file object and write the bytes. *)
Definition SaveTo (cfg : IniFile) (p : path) : M (option error) :=
  log (call_SaveTo p) ;;;
  f <- get_fs ;;
  put_fs (snd (WriteFile p (ini_write cfg) f)) ;;;
  ret (fst (WriteFile p (ini_write cfg) f)).

(** [filepath.Join] on clean paths. *)
Definition filepath_Join (elems : list path) : path := concat elems.

(** The constants ".config/azgit" and "config.ini", by components. *)
Definition azgitFolderName : path := [".config"; "azgit"].
Definition azgitConfigFileName : path := ["config.ini"].

Record GitIdentity := {
  Name : string;
  Email : string;
  SigningKey : string;
  GPGSign : string
}.

(** [os.UserHomeDir] fails when [$HOME] is not defined, and the program
    panics with that message. *)
Definition userHomeDir : M path :=
  fun w => match env_home w with
           | Some home => ret home w
           | None => panic "Failed to get user's home directory: $HOME is not defined" w
           end.

Definition getAzgitConfigPath : M path :=
  home <- userHomeDir ;;
  ret (filepath_Join [home; azgitFolderName; azgitConfigFileName]).

Definition loadAzGitConfig : M (error + IniFile) :=
  p <- getAzgitConfigPath ;;
  ini_Load p.

Definition ensureAzGitFolderExists : M (option error) :=
  home <- userHomeDir ;;
  let azgitFolderPath := filepath_Join [home; azgitFolderName] in
  err <- os_Stat azgitFolderPath ;;
  if os_IsNotExist err then os_MkdirAll azgitFolderPath
  else ret None.

Definition fetchDefaultGitIdentity : M (GitIdentity * option error) :=
  home <- userHomeDir ;;
  let gitConfigPath := filepath_Join [home; [".gitconfig"]] in
  r <- ini_Load gitConfigPath ;;
  match r with
  | inl err =>
      ret ({| Name := ""; Email := ""; SigningKey := ""; GPGSign := "" |},
           Some (Errorf "failed to read ~/.gitconfig: " err))
  | inr gitCfg =>
      ret ({| Name := Key_String (File_Section gitCfg "user") "name";
              Email := Key_String (File_Section gitCfg "user") "email";
              SigningKey := Key_String (File_Section gitCfg "user") "signingkey";
              GPGSign := Key_String (File_Section gitCfg "commit") "gpgsign" |},
           None)
  end.

Definition initializeAzGitConfig : M (option error) :=
  p <- getAzgitConfigPath ;;
  err <- os_Stat p ;;
  if negb (os_IsNotExist err) then ret None else
  err <- ensureAzGitFolderExists ;;
  match err with
  | Some e => ret (Some (Errorf "failed to ensure azgit config directory exists: " e))
  | None =>
  r <- fetchDefaultGitIdentity ;;
  match r with
  | (_, Some e) => ret (Some e)
  | (gitIdentity, None) =>
  let newCfg := Empty in
  match NewSection "default" newCfg with
  | inl msg =>
      ret (Some (Errorf "failed to create default section in azgit config: " (IniError msg)))
  | inr (newCfg, defaultSection) =>
  let newCfg := File_NewKey defaultSection "name" (Name gitIdentity) newCfg in
  let newCfg := File_NewKey defaultSection "email" (Email gitIdentity) newCfg in
  let newCfg :=
    if negb (String.eqb (SigningKey gitIdentity) "")
    then File_NewKey defaultSection "signingkey" (SigningKey gitIdentity) newCfg
    else newCfg in
  let newCfg :=
    if negb (String.eqb (GPGSign gitIdentity) "")
    then File_NewKey defaultSection "gpgsign" (GPGSign gitIdentity) newCfg
    else newCfg in
  p <- getAzgitConfigPath ;;
  SaveTo newCfg p
  end end end.

(** The body of the loop of [listIdentities], for one section. *)
Definition listSection (section : IniSection) : M unit :=
  let name := Key_String section "name" in
  let email := Key_String section "email" in
  (* Skip sections without valid data *)
  if String.eqb name "" && String.eqb email "" then ret tt else
  let signingKey := Key_String section "signingkey" in
  let gpgSign := Key_String section "gpgsign" in
  let identityInfo := Sprintf (nl +:+ "Identity [%s]:" +:+ nl) [sec_name section] in
  let identityInfo := identityInfo +:+ Sprintf (tab +:+ "Name: %s" +:+ nl) [name] in
  let identityInfo := identityInfo +:+ Sprintf (tab +:+ "Email: %s" +:+ nl) [email] in
  let identityInfo :=
    if negb (String.eqb signingKey "")
    then identityInfo +:+ Sprintf (tab +:+ "Signing Key: %s" +:+ nl) [signingKey]
    else identityInfo in
  let identityInfo :=
    if negb (String.eqb gpgSign "")
    then identityInfo +:+ Sprintf (tab +:+ "GPG Sign: %s" +:+ nl) [gpgSign]
    else identityInfo in
  fmt_Println identityInfo.

Definition listIdentities : M (option error) :=
  r <- loadAzGitConfig ;;
  match r with
  | inl err => ret (Some (Errorf "failed to read azgit config: " err))
  | inr cfg =>
      fmt_Println "List of Identities:" ;;;
      for_each (Sections cfg) listSection ;;;
      ret None
  end.

(** The [list] command runs [listIdentities] and nothing before it. *)
Definition listCmd_RunE : M (option error) := listIdentities.

(** [rootCmd.RunE]: bootstrap, then the help of the command; [cmd_Help]
    is [cmd.Help], which belongs to the command-line library. *)
Definition rootCmd_RunE (cmd_Help : M (option error)) : M (option error) :=
  err <- initializeAzGitConfig ;;
  match err with
  | Some e => ret (Some e)
  | None => cmd_Help
  end.

End Program.

(** ** Vocabulary of the statements *)

(** The three fixed locations under the home directory. *)
Definition configPath (home : path) : path := home ++ [".config"; "azgit"; "config.ini"].
Definition folderPath (home : path) : path := home ++ [".config"; "azgit"].
Definition gitConfigPath (home : path) : path := home ++ [".gitconfig"].


(** A section the listing shows: its name or its email is not empty. *)
Definition displayed (s : IniSection) : bool :=
  negb (String.eqb (Key_String s "name") "") || negb (String.eqb (Key_String s "email") "").

(** Lines, each closed by a newline. *)
Definition unlines (ls : list string) : string :=
  String.concat "" (map (fun l => l +:+ nl) ls).

Definition optional_line (label value : string) : list string :=
  if String.eqb value "" then [] else [tab +:+ label +:+ value].

(** The lines of the block of one identity: an empty line, the header,
    the name and the email, the two optional lines, and the empty line
    that [Println] closes the block with. *)
Definition block_lines (s : IniSection) : list string :=
  [ ""; "Identity [" +:+ sec_name s +:+ "]:";
    tab +:+ "Name: " +:+ Key_String s "name";
    tab +:+ "Email: " +:+ Key_String s "email" ]
  ++ optional_line "Signing Key: " (Key_String s "signingkey")
  ++ optional_line "GPG Sign: " (Key_String s "gpgsign")
  ++ [ "" ].

(** The block as [Println] writes it. *)
Definition identityBlock (s : IniSection) : string := unlines (block_lines s).

(** What Git's global configuration says about the user. *)
Definition gitIdentityOf (gitCfg : IniFile) : GitIdentity :=
  {| Name := Key_String (File_Section gitCfg "user") "name";
     Email := Key_String (File_Section gitCfg "user") "email";
     SigningKey := Key_String (File_Section gitCfg "user") "signingkey";
     GPGSign := Key_String (File_Section gitCfg "commit") "gpgsign" |}.

Definition optional_key (k v : string) : list (string * string) :=
  if String.eqb v "" then [] else [(k, v)].

(** The file object bootstrap hands to [SaveTo]: the library's unnamed
    section, left empty, and the section [default]. *)
Definition defaultStore (i : GitIdentity) : IniFile :=
  [ {| sec_name := DefaultSection; sec_keys := [] |};
    {| sec_name := "default";
       sec_keys := [("name", Name i); ("email", Email i)]
                   ++ optional_key "signingkey" (SigningKey i)
                   ++ optional_key "gpgsign" (GPGSign i) |} ].

(** A file system [f'] extends [f] below [p] when the two differ at most
    by new directories at prefixes of [p]. *)
Definition grows_towards (p : path) (f f' : FS) : Prop :=
  eacces f' = eacces f /\ eio f' = eio f /\
  forall q, nodes f' !! q = nodes f !! q \/
            (nodes f !! q = None /\ nodes f' !! q = Some Dir /\ q `prefix_of` p).

(** A call that returned a result and no error. *)
Definition succeeded {A B} (r : A + B) : bool :=
  match r with inr _ => true | inl _ => false end.

(** ** A reference codec

    A small line-based reader and writer in the shape of the format
    ([[section]] headers, [key = value] lines, [#] and [;] comments), used
    to run the program end to end.  The theorems below hold for every
    codec. *)

Module RefCodec.

Fixpoint splitOn (c : ascii) (s : string) : list string :=
  match s with
  | EmptyString => [EmptyString]
  | String a rest =>
      if Ascii.eqb a c then EmptyString :: splitOn c rest
      else match splitOn c rest with
           | seg :: segs => String a seg :: segs
           | [] => [String a EmptyString]
           end
  end.

Fixpoint trimLeft (s : string) : string :=
  match s with
  | String a rest =>
      if Ascii.eqb a " "%char || Ascii.eqb a "009"%char then trimLeft rest else s
  | EmptyString => EmptyString
  end.

Definition trim (s : string) : string :=
  String.rev (trimLeft (String.rev (trimLeft s))).

Fixpoint cut (c : ascii) (s : string) : option (string * string) :=
  match s with
  | EmptyString => None
  | String a rest =>
      if Ascii.eqb a c then Some (EmptyString, rest)
      else match cut c rest with
           | Some (l, r) => Some (String a l, r)
           | None => None
           end
  end.

Definition header (line : string) : option string :=
  match line with
  | String "["%char rest =>
      match String.rev rest with
      | String "]"%char inner => Some (String.rev inner)
      | _ => None
      end
  | _ => None
  end.

Definition is_comment (line : string) : bool :=
  match line with
  | EmptyString => true
  | String c _ => Ascii.eqb c "#"%char || Ascii.eqb c ";"%char
  end.

Fixpoint parseLines (lines : list string) (cur : string) (f : IniFile)
  : string + IniFile :=
  match lines with
  | [] => inr f
  | l :: rest =>
      let line := trim l in
      if is_comment line then parseLines rest cur f
      else match header line with
           | Some name =>
               match NewSection name f with
               | inl msg => inl msg
               | inr (f', h) => parseLines rest h f'
               end
           | None =>
               match cut "="%char line with
               | Some (k, v) => parseLines rest cur (File_NewKey cur (trim k) (trim v) f)
               | None => inl ("key-value delimiter not found: " +:+ line)
               end
           end
  end.

Definition parse (data : string) : string + IniFile :=
  parseLines (splitOn "010"%char data) DefaultSection Empty.

Definition writeKeys (kvs : list (string * string)) : string :=
  String.concat "" (map (fun kv => fst kv +:+ " = " +:+ snd kv +:+ nl) kvs).

Definition writeSection (first : bool) (s : IniSection) : string :=
  if first && String.eqb (sec_name s) DefaultSection
  then match sec_keys s with
       | [] => ""
       | kvs => writeKeys kvs +:+ nl
       end
  else "[" +:+ sec_name s +:+ "]" +:+ nl +:+ writeKeys (sec_keys s) +:+ nl.

Definition write (f : IniFile) : string :=
  match f with
  | [] => ""
  | s :: rest => writeSection true s +:+ String.concat "" (map (writeSection false) rest)
  end.

#[export] Instance codec : Codec := {| ini_parse := parse; ini_write := write |}.

End RefCodec.

(** ** Running the program *)

Module Run.
Import RefCodec.

Definition home : path := ["home"; "alice"].

Definition fs_of (l : list (path * node)) : FS :=
  {| nodes := list_to_map l; eacces := ∅; eio := ∅ |}.

Definition world_of (f : FS) : World :=
  {| env_home := Some home; fsys := f; stdout := []; calls := [] |}.

(** A Git configuration with a name and an email and nothing else. *)
Definition gitconfig_alice : string :=
  "[user]" +:+ nl +:+
  tab +:+ "name = Alice" +:+ nl +:+
  tab +:+ "email = alice@example.com" +:+ nl.

(** What the codec reads in [gitconfig_alice]. *)
Definition gitCfg_alice : IniFile :=
  [ {| sec_name := DefaultSection; sec_keys := [] |};
    {| sec_name := "user";
       sec_keys := [("name", "Alice"); ("email", "alice@example.com")] |} ].

(** A home directory with a Git configuration and no store yet. *)
Definition fs_fresh : FS :=
  fs_of [ (["home"], Dir); (home, Dir);
          (gitConfigPath home, RegFile gitconfig_alice) ].

(** A home directory with nothing in it. *)
Definition fs_bare : FS := fs_of [ (["home"], Dir); (home, Dir) ].

Definition store_alice : string :=
  "[default]" +:+ nl +:+
  "name = Alice" +:+ nl +:+
  "email = alice@example.com" +:+ nl +:+ nl.

Definition cfg_alice : IniFile :=
  [ {| sec_name := DefaultSection; sec_keys := [] |};
    {| sec_name := "default";
       sec_keys := [("name", "Alice"); ("email", "alice@example.com")] |} ].

Definition fs_with (store : string) : FS :=
  fs_of [ (["home"], Dir); (home, Dir);
          (home ++ [".config"], Dir); (folderPath home, Dir);
          (configPath home, RegFile store);
          (gitConfigPath home, RegFile gitconfig_alice) ].

(** The store is there, and out of reach. *)
Definition fs_denied : FS :=
  {| nodes := nodes (fs_with store_alice);
     eacces := {[ configPath home; folderPath home ]};
     eio := ∅ |}.

(** [.config] is a regular file: nothing can be looked up below it. *)
Definition fs_blocked : FS :=
  fs_of [ (["home"], Dir); (home, Dir); (home ++ [".config"], RegFile "");
          (gitConfigPath home, RegFile gitconfig_alice) ].

(** A store with keys before the first header, two identities and a
    section without keys. *)
Definition store_team : string :=
  "name = Global" +:+ nl +:+
  "[work]" +:+ nl +:+
  "name = Bob" +:+ nl +:+
  "email = bob@x.com" +:+ nl +:+
  "signingkey = ABCD" +:+ nl +:+
  "[empty]" +:+ nl +:+
  "[home]" +:+ nl +:+
  "email = me@home" +:+ nl.

Definition cfg_team : IniFile :=
  [ {| sec_name := DefaultSection; sec_keys := [("name", "Global")] |};
    {| sec_name := "work";
       sec_keys := [("name", "Bob"); ("email", "bob@x.com"); ("signingkey", "ABCD")] |};
    {| sec_name := "empty"; sec_keys := [] |};
    {| sec_name := "home"; sec_keys := [("email", "me@home")] |} ].

(** A store in which no section has a name or an email. *)
Definition store_blank : string :=
  "[empty]" +:+ nl +:+ "[keys]" +:+ nl +:+ "signingkey = ABCD" +:+ nl.

Definition cfg_blank : IniFile :=
  [ {| sec_name := DefaultSection; sec_keys := [] |};
    {| sec_name := "empty"; sec_keys := [] |};
    {| sec_name := "keys"; sec_keys := [("signingkey", "ABCD")] |} ].

(** The write to the store path fails once the file is open. *)
Definition fs_eio : FS :=
  {| nodes := nodes fs_fresh; eacces := ∅; eio := {[ configPath home ]} |}.

(** A regular file sits where the folder of the store should be. *)
Definition fs_file_folder : FS :=
  fs_of [ (["home"], Dir); (home, Dir); (home ++ [".config"], Dir);
          (folderPath home, RegFile "") ].

(** [.config] exists and cannot be entered. *)
Definition fs_locked : FS :=
  {| nodes := nodes fs_fresh; eacces := {[ home ++ [".config"] ]}; eio := ∅ |}.

(** A Git configuration that says nothing about the user. *)
Definition fs_anonymous : FS :=
  fs_of [ (["home"], Dir); (home, Dir);
          (gitConfigPath home, RegFile ("[core]" +:+ nl +:+ "editor = vi" +:+ nl)) ].

Definition gitCfg_anonymous : IniFile :=
  [ {| sec_name := DefaultSection; sec_keys := [] |};
    {| sec_name := "core"; sec_keys := [("editor", "vi")] |} ].

(** A process whose [$HOME] is not defined. *)
Definition world_homeless : World :=
  {| env_home := None; fsys := fs_fresh; stdout := []; calls := [] |}.

(** A stand-in for the help of the command. *)
Definition help_stub : M (option error) :=
  fmt_Println "Usage: azgit" ;;; ret None.

End Run.

(** * Properties *)

(** ** The file system: what [MkdirAll] can change *)

Lemma MkdirAll_rev_eq (rp : list string) (f : FS) :
  MkdirAll_rev rp f =
  match Stat (rev rp) f with
  | inr Dir => inr f
  | inr (RegFile _) => inl (PathError "mkdir" (rev rp) ENOTDIR)
  | inl _ =>
      match (match rp with
             | _ :: ((_ :: _) as rp') => MkdirAll_rev rp' f
             | _ => inr f
             end) with
      | inl e => inl e
      | inr f' =>
          match Mkdir (rev rp) f' with
          | inr f'' => inr f''
          | inl e =>
              match Stat (rev rp) f' with
              | inr Dir => inr f'
              | _ => inl (PathError "mkdir" (rev rp) e)
              end
          end
      end
  end.
Proof. destruct rp; reflexivity. Qed.

Lemma Mkdir_inv (p : path) (f f' : FS) :
  Mkdir p f = inr f' -> f' = set_node p Dir f /\ nodes f !! p = None.
Proof.
  unfold Mkdir. destruct (resolve f p); [done|].
  destruct p as [|c p]; [done|]. cbn [fs_node].
  destruct (nodes f !! (c :: p)) eqn:E; [done|].
  destruct (fs_node f (parent (c :: p))) as [[|d]|]; try done.
  intros [= <-]. auto.
Qed.

Lemma grows_refl (p : path) (f : FS) : grows_towards p f f.
Proof. repeat split. intros q. now left. Qed.

Lemma grows_step (p : path) (c : string) (f f1 f2 : FS) :
  grows_towards p f f1 -> grows_towards (p ++ [c]) f1 f2 ->
  grows_towards (p ++ [c]) f f2.
Proof.
  intros (Ha & Hi & Hn) (Ha' & Hi' & Hn'). repeat split; [congruence..|].
  intros q. destruct (Hn' q) as [E|(E1 & E2 & E3)], (Hn q) as [F|(F1 & F2 & F3)].
  - left. congruence.
  - right. repeat split; [congruence..|]. now apply prefix_app_r.
  - right. repeat split; [congruence..|]. exact E3.
  - congruence.
Qed.

Lemma Mkdir_grows (p : path) (f f' : FS) :
  Mkdir p f = inr f' -> grows_towards p f f'.
Proof.
  intros [-> Hnone]%Mkdir_inv. repeat split. intros q. cbn.
  destruct (decide (p = q)) as [<-|Hne].
  - right. rewrite lookup_insert_eq. auto.
  - left. now rewrite lookup_insert_ne.
Qed.

Lemma mkdir_step_grows (p : path) (c : string) (f f1 f' : FS) :
  grows_towards p f f1 ->
  match Mkdir (p ++ [c]) f1 with
  | inr f'' => inr f''
  | inl e =>
      match Stat (p ++ [c]) f1 with
      | inr Dir => inr f1
      | _ => inl (PathError "mkdir" (p ++ [c]) e)
      end
  end = inr f' ->
  grows_towards (p ++ [c]) f f'.
Proof.
  intros Hpar. destruct (Mkdir (p ++ [c]) f1) as [e'|f''] eqn:E.
  - destruct (Stat (p ++ [c]) f1) as [?|[|?]]; try discriminate.
    intros [= <-]. eapply grows_step; [exact Hpar|apply grows_refl].
  - intros [= <-]. eapply grows_step; [exact Hpar|]. now apply Mkdir_grows.
Qed.

Lemma MkdirAll_rev_grows (rp : list string) :
  forall f f', MkdirAll_rev rp f = inr f' -> grows_towards (rev rp) f f'.
Proof.
  induction rp as [|c rp IH]; intros f f'; rewrite MkdirAll_rev_eq.
  - destruct (Stat (rev []) f) as [e|[|d]]; [|intros [= <-]; apply grows_refl|discriminate].
    destruct (Mkdir (rev []) f) as [e'|f''] eqn:E.
    + discriminate.
    + intros [= <-]. now apply Mkdir_grows.
  - destruct (Stat (rev (c :: rp)) f) as [e|[|d]];
      [|intros [= <-]; apply grows_refl|discriminate].
    cbn [rev]. destruct rp as [|c' rp'].
    + apply mkdir_step_grows, grows_refl.
    + destruct (MkdirAll_rev (c' :: rp') f) as [e1|f1] eqn:E1; [discriminate|].
      apply mkdir_step_grows. now apply IH.
Qed.

Lemma MkdirAll_grows (p : path) (f f' : FS) :
  MkdirAll p f = inr f' -> grows_towards p f f'.
Proof.
  unfold MkdirAll. intros Hm%MkdirAll_rev_grows. now rewrite rev_involutive in Hm.
Qed.

Lemma configPath_not_prefix (home : path) :
  ~ configPath home `prefix_of` folderPath home.
Proof.
  intros Hp%prefix_length. unfold configPath, folderPath in Hp.
  rewrite !length_app in Hp. cbn in Hp. lia.
Qed.

Lemma gitConfigPath_not_prefix (home : path) :
  ~ gitConfigPath home `prefix_of` folderPath home.
Proof.
  unfold gitConfigPath, folderPath. intros Hp%prefix_app_inv.
  apply prefix_cons_inv_1 in Hp. discriminate.
Qed.

Lemma grows_regular (p : path) (f f' : FS) (q : path) :
  grows_towards p f f' -> is_regular (fs_node f' q) = is_regular (fs_node f q).
Proof.
  intros (_ & _ & Hn). destruct q as [|c q]; [reflexivity|]. cbn [fs_node].
  destruct (Hn (c :: q)) as [->|(-> & -> & _)]; reflexivity.
Qed.

Lemma grows_resolve (p : path) (f f' : FS) (q : path) :
  grows_towards p f f' -> resolve f' q = resolve f q.
Proof.
  intros Hg. unfold resolve.
  assert (Hx : existsb (fun a => is_regular (fs_node f' a)) (ancestors q)
             = existsb (fun a => is_regular (fs_node f a)) (ancestors q)).
  { induction (ancestors q) as [|a l IH]; [reflexivity|]. cbn [existsb].
    rewrite IH. f_equal. now apply (grows_regular p). }
  destruct Hg as (-> & _ & _). now rewrite Hx.
Qed.

Lemma grows_node (p : path) (f f' : FS) (q : path) :
  grows_towards p f f' -> ~ q `prefix_of` p -> fs_node f' q = fs_node f q.
Proof.
  intros (_ & _ & Hn) Hq. destruct q as [|c q]; [reflexivity|]. cbn [fs_node].
  destruct (Hn (c :: q)) as [->|(_ & _ & Hp)]; [reflexivity|contradiction].
Qed.

Lemma grows_ReadFile (p : path) (f f' : FS) (q : path) :
  grows_towards p f f' -> ~ q `prefix_of` p -> ReadFile q f' = ReadFile q f.
Proof.
  intros Hg Hq. unfold ReadFile.
  now rewrite (grows_resolve p f f' q Hg), (grows_node p f f' q Hg Hq).
Qed.

(** [Stat] answers [ENOENT] only where there is nothing. *)
Lemma Stat_ENOENT (p : path) (f : FS) :
  Stat p f = inl ENOENT -> nodes f !! p = None.
Proof.
  unfold Stat, resolve. destruct (decide (p ∈ eacces f)); [discriminate|].
  destruct (existsb _ _); [discriminate|].
  destruct p as [|c p]; [discriminate|]. cbn [fs_node].
  destruct (nodes f !! (c :: p)); [discriminate|reflexivity].
Qed.

Lemma Stat_present (p : path) (f : FS) (n : node) :
  nodes f !! p = Some n -> Stat p f <> inl ENOENT.
Proof. intros Hn Hs. apply Stat_ENOENT in Hs. congruence. Qed.

Lemma WriteFile_ok (p : path) (data : string) (f : FS) :
  fst (WriteFile p data f) = None ->
  nodes (snd (WriteFile p data f)) !! p = Some (RegFile data).
Proof.
  unfold WriteFile. destruct (resolve f p); [discriminate|].
  assert (Hw : fst (match fs_node f (parent p) with
                    | Some Dir =>
                        if decide (p ∈ eio f)
                        then (Some (PathError "write" p EIO), set_node p (RegFile "") f)
                        else (None, set_node p (RegFile data) f)
                    | Some (RegFile _) => (Some (PathError "open" p ENOTDIR), f)
                    | None => (Some (PathError "open" p ENOENT), f)
                    end) = None ->
               nodes (snd (match fs_node f (parent p) with
                    | Some Dir =>
                        if decide (p ∈ eio f)
                        then (Some (PathError "write" p EIO), set_node p (RegFile "") f)
                        else (None, set_node p (RegFile data) f)
                    | Some (RegFile _) => (Some (PathError "open" p ENOTDIR), f)
                    | None => (Some (PathError "open" p ENOENT), f)
                    end)) !! p = Some (RegFile data)).
  { destruct (fs_node f (parent p)) as [[|d]|]; try discriminate.
    destruct (decide (p ∈ eio f)); [discriminate|]. intros _. cbn.
    apply lookup_insert_eq. }
  destruct (fs_node f p) as [[|d]|]; [discriminate|exact Hw|exact Hw].
Qed.

(** ** The world under its updates *)

Lemma fsys_with_call (c : call) (w : World) : fsys (with_call c w) = fsys w.
Proof. reflexivity. Qed.
Lemma fsys_with_write (s : string) (w : World) : fsys (with_write s w) = fsys w.
Proof. reflexivity. Qed.
Lemma fsys_with_fs (f : FS) (w : World) : fsys (with_fs f w) = f.
Proof. reflexivity. Qed.
Lemma env_home_with_call (c : call) (w : World) : env_home (with_call c w) = env_home w.
Proof. reflexivity. Qed.
Lemma env_home_with_write (s : string) (w : World) : env_home (with_write s w) = env_home w.
Proof. reflexivity. Qed.
Lemma env_home_with_fs (f : FS) (w : World) : env_home (with_fs f w) = env_home w.
Proof. reflexivity. Qed.
Lemma stdout_with_call (c : call) (w : World) : stdout (with_call c w) = stdout w.
Proof. reflexivity. Qed.
Lemma stdout_with_fs (f : FS) (w : World) : stdout (with_fs f w) = stdout w.
Proof. reflexivity. Qed.
Lemma stdout_with_write (s : string) (w : World) :
  stdout (with_write s w) = stdout w ++ [s].
Proof. reflexivity. Qed.
Lemma calls_with_call (c : call) (w : World) : calls (with_call c w) = calls w ++ [c].
Proof. reflexivity. Qed.
Lemma calls_with_fs (f : FS) (w : World) : calls (with_fs f w) = calls w.
Proof. reflexivity. Qed.
Lemma calls_with_write (s : string) (w : World) : calls (with_write s w) = calls w.
Proof. reflexivity. Qed.

Create Rewrite HintDb world.

Ltac step := cbv beta iota; autorewrite with world.
#[global] Hint Rewrite fsys_with_call fsys_with_write fsys_with_fs
  env_home_with_call env_home_with_write env_home_with_fs
  stdout_with_call stdout_with_fs stdout_with_write
  calls_with_call calls_with_fs calls_with_write : world.

(** ** The program, step by step *)

Section Properties.

Context `{!Codec}.

Lemma getAzgitConfigPath_run (w : World) (home : path) :
  env_home w = Some home -> getAzgitConfigPath w = Done (configPath home) w.
Proof.
  intros Hh. unfold getAzgitConfigPath, userHomeDir, bind, ret. now rewrite Hh.
Qed.

Lemma ensureAzGitFolderExists_run (w : World) (home : path) :
  env_home w = Some home ->
  ensureAzGitFolderExists w =
  let w0 := with_call (call_Stat (folderPath home)) w in
  match Stat (folderPath home) (fsys w) with
  | inl ENOENT =>
      let w1 := with_call (call_MkdirAll (folderPath home)) w0 in
      match MkdirAll (folderPath home) (fsys w) with
      | inl e => Done (Some e) w1
      | inr f' => Done None (with_fs f' w1)
      end
  | _ => Done None w0
  end.
Proof.
  intros Hh.
  unfold ensureAzGitFolderExists, userHomeDir, os_Stat, os_MkdirAll,
    bind, ret, log, get_fs, put_fs.
  rewrite Hh. change (filepath_Join [home; azgitFolderName]) with (folderPath home).
  step.
  destruct (Stat (folderPath home) (fsys w)) as [[]|n]; cbn [os_IsNotExist]; try reflexivity.
  step. destruct (MkdirAll (folderPath home) (fsys w)); reflexivity.
Qed.

Lemma initializeAzGitConfig_run (w : World) (home : path) :
  env_home w = Some home ->
  initializeAzGitConfig w =
  let w0 := with_call (call_Stat (configPath home)) w in
  match Stat (configPath home) (fsys w) with
  | inl ENOENT =>
      match ensureAzGitFolderExists w0 with
      | Panic msg => Panic msg
      | Done (Some e) w1 =>
          Done (Some (Errorf "failed to ensure azgit config directory exists: " e)) w1
      | Done None w1 =>
          let w2 := with_call (call_Load (gitConfigPath home)) w1 in
          match loadFile (gitConfigPath home) (fsys w1) with
          | inl cause => Done (Some (Errorf "failed to read ~/.gitconfig: " cause)) w2
          | inr gitCfg =>
              let data := ini_write (defaultStore (gitIdentityOf gitCfg)) in
              let w3 := with_call (call_SaveTo (configPath home)) w2 in
              Done (fst (WriteFile (configPath home) data (fsys w1)))
                   (with_fs (snd (WriteFile (configPath home) data (fsys w1))) w3)
          end
      end
  | _ => Done None w0
  end.
Proof.
  intros Hh. unfold initializeAzGitConfig.
  unfold bind at 1. rewrite (getAzgitConfigPath_run w home Hh).
  unfold bind at 1. unfold os_Stat, bind, ret, log, get_fs. step.
  destruct (Stat (configPath home) (fsys w)) as [[]|n]; cbn [os_IsNotExist negb]; try reflexivity.
  set (w0 := with_call (call_Stat (configPath home)) w).
  assert (Hh0 : env_home w0 = Some home) by exact Hh. clearbody w0.
  rewrite (ensureAzGitFolderExists_run w0 home Hh0). cbv zeta.
  destruct (Stat (folderPath home) (fsys w0)) as [[]|n];
    [destruct (MkdirAll (folderPath home) (fsys w0)); [reflexivity|]|..];
    unfold fetchDefaultGitIdentity, getAzgitConfigPath, userHomeDir, ini_Load, SaveTo,
      bind, ret, log, get_fs, put_fs; step; rewrite Hh0; step;
    change (filepath_Join [home; [".gitconfig"]]) with (gitConfigPath home);
    (match goal with
     | |- context [loadFile ?p ?f] => destruct (loadFile p f) as [cause|gitCfg]
     end; [reflexivity|]);
    change (NewSection "default" Empty) with
      (@inr string _ (Empty ++ [ {| sec_name := "default"; sec_keys := [] |} ], "default"));
    step; rewrite Hh0; step;
    unfold defaultStore, optional_key, gitIdentityOf; cbn [Name Email SigningKey GPGSign];
    destruct (String.eqb (Key_String (File_Section gitCfg "user") "signingkey") ""),
             (String.eqb (Key_String (File_Section gitCfg "commit") "gpgsign") "");
    reflexivity.
Qed.

Lemma ensureAzGitFolderExists_frame (w : World) (home : path) :
  env_home w = Some home ->
  exists r w1,
    ensureAzGitFolderExists w = Done r w1 /\
    env_home w1 = Some home /\ stdout w1 = stdout w /\
    grows_towards (folderPath home) (fsys w) (fsys w1) /\
    (exists cs, calls w1 = calls w ++ cs /\ forall p, call_SaveTo p ∉ cs).
Proof.
  intros Hh. rewrite (ensureAzGitFolderExists_run w home Hh). cbv zeta.
  assert (Hstat : forall p, call_SaveTo p ∉ [call_Stat (folderPath home)]).
  { intros p [=]%list_elem_of_singleton. }
  assert (Hmk : forall p, call_SaveTo p
                  ∉ [call_Stat (folderPath home); call_MkdirAll (folderPath home)]).
  { intros p Hin. apply elem_of_cons in Hin as [[=]|[=]%list_elem_of_singleton]. }
  destruct (Stat (folderPath home) (fsys w)) as [[]|n];
    [destruct (MkdirAll (folderPath home) (fsys w)) as [e|f'] eqn:Em|..];
    eexists _, _; (split; [reflexivity|]); autorewrite with world;
    refine (conj Hh (conj eq_refl (conj _ _)));
    try apply grows_refl; try (now apply MkdirAll_grows);
    try (eexists; split; [reflexivity|exact Hstat]);
    try (eexists; split; [now rewrite <- app_assoc|exact Hmk]).
Qed.

(** ** Strings *)

#[local] Arguments String.append !s1 s2 : simpl nomatch.

Lemma append_assoc (a b c : string) : (a +:+ b) +:+ c = a +:+ (b +:+ c).
Proof. induction a as [|x a IH]; simpl; [reflexivity|f_equal; exact IH]. Qed.

Lemma eqb_empty (s : string) : String.eqb s "" = true <-> s = "".
Proof. apply String.eqb_eq. Qed.

Lemma with_writes_frame (l : list string) :
  forall w, env_home (with_writes l w) = env_home w /\
            fsys (with_writes l w) = fsys w /\
            calls (with_writes l w) = calls w /\
            stdout (with_writes l w) = stdout w ++ l.
Proof.
  induction l as [|c l IH]; intros w.
  - unfold with_writes. cbn. now rewrite app_nil_r.
  - change (with_writes (c :: l) w) with (with_writes l (with_write c w)).
    destruct (IH (with_write c w)) as (-> & -> & -> & ->).
    autorewrite with world. now rewrite <- app_assoc.
Qed.

Lemma listSection_run (s : IniSection) (w : World) :
  listSection s w = Done tt (if displayed s then with_write (identityBlock s) w else w).
Proof.
  unfold listSection, displayed, identityBlock, block_lines, optional_line.
  destruct (String.eqb (Key_String s "name") "") eqn:En,
           (String.eqb (Key_String s "email") "") eqn:Ee; cbn [andb orb negb];
    try reflexivity;
    unfold fmt_Println; do 2 f_equal;
    destruct (String.eqb (Key_String s "signingkey") ""),
             (String.eqb (Key_String s "gpgsign") "");
    unfold unlines, nl, tab; cbn; repeat (progress (rewrite ?append_assoc; cbn));
    reflexivity.
Qed.

Lemma for_each_listSection (l : list IniSection) :
  forall w, for_each l listSection w
            = Done tt (with_writes (map identityBlock (List.filter displayed l)) w).
Proof.
  induction l as [|s l IH]; intros w; [reflexivity|].
  cbn [for_each List.filter]. unfold bind. rewrite listSection_run.
  destruct (displayed s); apply IH.
Qed.

Lemma listIdentities_run (w : World) (home : path) :
  env_home w = Some home ->
  listIdentities w =
  let w0 := with_call (call_Load (configPath home)) w in
  match loadFile (configPath home) (fsys w) with
  | inl err => Done (Some (Errorf "failed to read azgit config: " err)) w0
  | inr cfg =>
      Done None
        (with_writes (map identityBlock (List.filter displayed (Sections cfg)))
           (with_write ("List of Identities:" +:+ nl) w0))
  end.
Proof.
  intros Hh. unfold listIdentities, loadAzGitConfig.
  unfold bind at 1. unfold bind at 1. rewrite (getAzgitConfigPath_run w home Hh).
  unfold ini_Load, bind, ret, log, get_fs. step.
  destruct (loadFile (configPath home) (fsys w)) as [err|cfg]; [reflexivity|].
  unfold fmt_Println. now rewrite for_each_listSection.
Qed.




(** ** The listing *)


(** C6: a displayed section is written as one block: an empty line, the
    header naming the section, the [Name:] and [Email:] lines, a
    [Signing Key:] line only for a non-empty signing key, a [GPG Sign:]
    line only for a non-empty gpgsign; and a store whose only section
    with keys is [default] with name Alice and email alice@example.com is
    listed as the title line and that one block. *)
Theorem listing_block_format :
  (forall (section : IniSection) (w : World), displayed section = true ->
     listSection section w =
     Done tt (with_write
       (unlines
          ([ ""; "Identity [" +:+ sec_name section +:+ "]:";
             tab +:+ "Name: " +:+ Key_String section "name";
             tab +:+ "Email: " +:+ Key_String section "email" ]
           ++ (if String.eqb (Key_String section "signingkey") "" then []
               else [tab +:+ "Signing Key: " +:+ Key_String section "signingkey"])
           ++ (if String.eqb (Key_String section "gpgsign") "" then []
               else [tab +:+ "GPG Sign: " +:+ Key_String section "gpgsign"])
           ++ [ "" ])) w)) /\
  (forall (w : World) (home : path) (cfg : IniFile) (unnamed : list IniSection),
     env_home w = Some home ->
     loadFile (configPath home) (fsys w) = inr cfg ->
     Forall (fun s => sec_keys s = []) unnamed ->
     Sections cfg = unnamed ++
       [ {| sec_name := "default";
            sec_keys := [("name", "Alice"); ("email", "alice@example.com")] |} ] ->
     exists w', listIdentities w = Done None w' /\
       stdout w' = stdout w ++
         [ "List of Identities:" +:+ nl;
           nl +:+ "Identity [default]:" +:+ nl +:+
           tab +:+ "Name: Alice" +:+ nl +:+
           tab +:+ "Email: alice@example.com" +:+ nl +:+ nl ]).
Proof.
  split.
  - intros section w Hd. rewrite listSection_run, Hd. reflexivity.
  - intros w home cfg unnamed Hh Hload Hun Hsec.
    rewrite (listIdentities_run w home Hh), Hload. cbv zeta.
    eexists; split; [reflexivity|].
    destruct (with_writes_frame
      (map identityBlock (List.filter displayed (Sections cfg)))
      (with_write ("List of Identities:" +:+ nl)
         (with_call (call_Load (configPath home)) w))) as (_ & _ & _ & ->).
    autorewrite with world. rewrite <- app_assoc. f_equal. cbn [app]. f_equal.
    rewrite Hsec, List.filter_app.
    assert (Hnone : List.filter displayed unnamed = []).
    { clear Hsec. induction Hun as [|s l Hs _ IH]; [reflexivity|].
      cbn [List.filter]. destruct s as [n ks]. cbn in Hs. subst ks.
      exact IH. }
    rewrite Hnone. reflexivity.
Qed.

Lemma listIdentities_stdout (w : World) (home : path) (cfg : IniFile) :
  env_home w = Some home ->
  loadFile (configPath home) (fsys w) = inr cfg ->
  exists w', listIdentities w = Done None w' /\
    fsys w' = fsys w /\
    stdout w' = stdout w ++
      ("List of Identities:" +:+ nl)
      :: map identityBlock (List.filter displayed (Sections cfg)).
Proof.
  intros Hh Hload. rewrite (listIdentities_run w home Hh), Hload. cbv zeta.
  eexists; split; [reflexivity|].
  destruct (with_writes_frame
    (map identityBlock (List.filter displayed (Sections cfg)))
    (with_write ("List of Identities:" +:+ nl)
       (with_call (call_Load (configPath home)) w))) as (_ & -> & _ & ->).
  autorewrite with world. split; [reflexivity|]. now rewrite <- app_assoc.
Qed.

(** C7: the listing goes through all the sections of the store in their
    order of declaration and applies one rule to each, whatever its name
    (the unnamed section of the format, [DEFAULT], included): the blocks
    written after the title are those of the displayed sections, in the
    order of the sections. *)
Theorem listing_follows_declaration_order
    (w : World) (home : path) (cfg : IniFile) :
  env_home w = Some home ->
  loadFile (configPath home) (fsys w) = inr cfg ->
  exists w', listIdentities w = Done None w' /\
    stdout w' = stdout w ++
      ("List of Identities:" +:+ nl)
      :: map identityBlock (List.filter displayed (Sections cfg)) /\
    (forall before s1 between s2 after,
       Sections cfg = before ++ s1 :: between ++ s2 :: after ->
       displayed s1 = true -> displayed s2 = true ->
       exists b1 b2 b3,
         stdout w' = stdout w ++ ("List of Identities:" +:+ nl)
                       :: b1 ++ identityBlock s1 :: b2 ++ identityBlock s2 :: b3) /\
    (forall keys rest,
       Sections cfg = {| sec_name := DefaultSection; sec_keys := keys |} :: rest ->
       displayed {| sec_name := DefaultSection; sec_keys := keys |} = true ->
       stdout w' = stdout w ++
         ("List of Identities:" +:+ nl)
         :: identityBlock {| sec_name := DefaultSection; sec_keys := keys |}
         :: map identityBlock (List.filter displayed rest)).
Proof.
  intros Hh Hload.
  destruct (listIdentities_stdout w home cfg Hh Hload) as (w' & Hrun & _ & Hout).
  exists w'. split; [exact Hrun|]. split; [exact Hout|]. split.
  - intros before s1 between s2 after Hsec Hd1 Hd2.
    exists (map identityBlock (List.filter displayed before)),
           (map identityBlock (List.filter displayed between)),
           (map identityBlock (List.filter displayed after)).
    rewrite Hout, Hsec. do 2 f_equal.
    rewrite List.filter_app. cbn [List.filter]. rewrite Hd1.
    rewrite List.filter_app. cbn [List.filter]. rewrite Hd2.
    rewrite List.map_app. cbn [map]. rewrite List.map_app. reflexivity.
  - intros keys rest Hsec Hd. rewrite Hout, Hsec. cbn [List.filter].
    now rewrite Hd.
Qed.

(** C10: when the store loads, the line [List of Identities:] is written
    before any block, and it is all that is written when no section is
    displayed. *)
Theorem listing_prints_title_first (w : World) (home : path) (cfg : IniFile) :
  env_home w = Some home ->
  loadFile (configPath home) (fsys w) = inr cfg ->
  exists w' blocks, listCmd_RunE w = Done None w' /\
    stdout w' = stdout w ++ ("List of Identities:" +:+ nl) :: blocks /\
    ((forall s, In s (Sections cfg) -> displayed s = false) -> blocks = []).
Proof.
  intros Hh Hload.
  destruct (listIdentities_stdout w home cfg Hh Hload) as (w' & Hrun & _ & Hout).
  exists w', (map identityBlock (List.filter displayed (Sections cfg))).
  split; [exact Hrun|]. split; [exact Hout|].
  clear Hout. intros Hnone. induction (Sections cfg) as [|s l IH]; [reflexivity|].
  cbn [List.filter]. rewrite (Hnone s (or_introl eq_refl)).
  apply IH. intros s' Hs'. apply Hnone. now right.
Qed.

(** C8, as amended: the [list] command loads the store and does nothing
    before that; when the store cannot be read or parsed it returns the
    failure wrapped in the context [failed to read azgit config: ], having
    made the one call that loads the file and having written nothing. *)
Theorem list_wraps_load_failure (w : World) (home : path) (cause : error) :
  env_home w = Some home ->
  loadFile (configPath home) (fsys w) = inl cause ->
  listCmd_RunE w =
  Done (Some (Errorf "failed to read azgit config: " cause))
       (with_call (call_Load (configPath home)) w).
Proof.
  intros Hh Hload. unfold listCmd_RunE.
  now rewrite (listIdentities_run w home Hh), Hload.
Qed.

(** ** More on the file system *)

Lemma Stat_inr (p : path) (f : FS) (n : node) :
  Stat p f = inr n -> fs_node f p = Some n.
Proof.
  unfold Stat. destruct (resolve f p); [discriminate|].
  destruct (fs_node f p); [now intros [= ->]|discriminate].
Qed.

Lemma Stat_ENOENT_resolve (p : path) (f : FS) :
  Stat p f = inl ENOENT -> resolve f p = None.
Proof.
  unfold Stat, resolve. destruct (decide (p ∈ eacces f)); [discriminate|].
  now destruct (existsb _ _).
Qed.

Lemma Stat_error_resolve (p : path) (f : FS) (e : Errno) :
  Stat p f = inl e -> e <> ENOENT -> resolve f p = Some e.
Proof.
  unfold Stat. destruct (resolve f p) as [e'|]; [now intros [= ->]|].
  destruct (fs_node f p); [discriminate|]. intros [= <-] Hne. now elim Hne.
Qed.

Lemma MkdirAll_unresolved (p : path) (f : FS) (e : Errno) :
  resolve f p = Some e -> succeeded (MkdirAll p f) = false.
Proof.
  intros Hr. unfold MkdirAll. rewrite MkdirAll_rev_eq, rev_involutive.
  unfold Stat at 1. rewrite Hr.
  assert (Hstep : forall f', grows_towards p f f' ->
    succeeded (match Mkdir p f' with
               | inr f'' => inr f''
               | inl e0 =>
                   match Stat p f' with
                   | inr Dir => inr f'
                   | _ => inl (PathError "mkdir" p e0)
                   end
               end) = false).
  { intros f' Hg. unfold Mkdir, Stat. now rewrite (grows_resolve p f f' p Hg), Hr. }
  destruct (rev p) as [|c [|c' rp]] eqn:Erev; try (apply Hstep, grows_refl).
  destruct (MkdirAll_rev (c' :: rp) f) as [e1|f1] eqn:E1; [reflexivity|].
  apply Hstep. apply MkdirAll_rev_grows in E1. destruct E1 as (Ha & Hi & Hn).
  repeat split; try assumption. intros q. destruct (Hn q) as [Hq|(Hq1 & Hq2 & Hq3)].
  - now left.
  - right. repeat split; try assumption.
    apply (f_equal (@rev string)) in Erev. rewrite rev_involutive in Erev.
    rewrite Erev. change (rev (c :: c' :: rp)) with (rev (c' :: rp) ++ [c]).
    now apply prefix_app_r.
Qed.

Lemma MkdirAll_dir (p : path) (f f' : FS) :
  MkdirAll p f = inr f' -> fs_node f' p = Some Dir.
Proof.
  unfold MkdirAll. rewrite MkdirAll_rev_eq, rev_involutive.
  destruct (Stat p f) as [e|[|d]] eqn:Es;
    [|intros [= <-]; now apply Stat_inr|discriminate].
  destruct (match rev p with
            | _ :: (_ :: _) as rp' => MkdirAll_rev rp' f
            | _ => inr f
            end) as [e1|f1]; [discriminate|].
  destruct (Mkdir p f1) as [e'|f''] eqn:Em.
  - destruct (Stat p f1) as [?|[|?]] eqn:Es1; try discriminate.
    intros [= <-]. now apply Stat_inr.
  - intros [= <-]. apply Mkdir_inv in Em as [-> _].
    destruct p as [|c p]; [reflexivity|]. cbn. apply lookup_insert_eq.
Qed.

Lemma MkdirAll_present (p : path) (f : FS) :
  Stat p f = inr Dir -> MkdirAll p f = inr f.
Proof.
  intros Hs. unfold MkdirAll. now rewrite MkdirAll_rev_eq, rev_involutive, Hs.
Qed.

Lemma parent_configPath (home : path) : parent (configPath home) = folderPath home.
Proof.
  unfold parent, configPath, folderPath.
  change [".config"; "azgit"; "config.ini"] with ([".config"; "azgit"] ++ ["config.ini"]).
  rewrite app_assoc. apply removelast_last.
Qed.

Lemma WriteFile_succeeds (p : path) (data : string) (f : FS) :
  resolve f p = None -> fs_node f p = None ->
  fs_node f (parent p) = Some Dir -> p ∉ eio f ->
  WriteFile p data f = (None, set_node p (RegFile data) f).
Proof.
  intros Hr Hn Hp Hio. unfold WriteFile. rewrite Hr, Hn, Hp.
  now destruct (decide (p ∈ eio f)).
Qed.

Lemma grows_loadFile (p : path) (f f' : FS) (q : path) :
  grows_towards p f f' -> ~ q `prefix_of` p -> loadFile q f' = loadFile q f.
Proof.
  intros Hg Hq. unfold loadFile. now rewrite (grows_ReadFile p f f' q Hg Hq).
Qed.

Lemma fs_node_nonempty (f : FS) (p : path) : p <> [] -> fs_node f p = nodes f !! p.
Proof. now destruct p. Qed.

Lemma configPath_nonempty (home : path) : configPath home <> [].
Proof. unfold configPath. now destruct home. Qed.

Lemma grows_config (home : path) (f f' : FS) :
  grows_towards (folderPath home) f f' ->
  nodes f' !! configPath home = nodes f !! configPath home.
Proof.
  intros (_ & _ & Hn). destruct (Hn (configPath home)) as [->|(_ & _ & Hp)];
    [reflexivity|]. now apply configPath_not_prefix in Hp.
Qed.

(** ** Bootstrap *)

Lemma ensureAzGitFolderExists_ok (w : World) (home : path) :
  env_home w = Some home ->
  succeeded (MkdirAll (folderPath home) (fsys w)) = true ->
  exists w1, ensureAzGitFolderExists w = Done None w1 /\
    env_home w1 = Some home /\ stdout w1 = stdout w /\
    MkdirAll (folderPath home) (fsys w) = inr (fsys w1).
Proof.
  intros Hh Hok. rewrite (ensureAzGitFolderExists_run w home Hh). cbv zeta.
  destruct (Stat (folderPath home) (fsys w)) as [e|n] eqn:Es.
  - destruct (decide (e = ENOENT)) as [->|Hne].
    + destruct (MkdirAll (folderPath home) (fsys w)) as [e1|f1]; [discriminate|].
      eexists; split; [reflexivity|]. now autorewrite with world.
    + apply Stat_error_resolve in Es; [|exact Hne].
      apply MkdirAll_unresolved in Es. congruence.
  - destruct n as [|d].
    + rewrite (MkdirAll_present _ _ Es).
      eexists; split; [reflexivity|]. now autorewrite with world.
    + unfold MkdirAll in Hok. rewrite MkdirAll_rev_eq, rev_involutive, Es in Hok.
      discriminate.
Qed.

(** With no store, a readable Git configuration, a directory that is
    there or can be made and a write that goes through, bootstrap
    succeeds and the store file holds the rendering of [defaultStore]. *)
Lemma bootstrap_writes_defaultStore (w : World) (home : path) (gitCfg : IniFile) :
  env_home w = Some home ->
  Stat (configPath home) (fsys w) = inl ENOENT ->
  loadFile (gitConfigPath home) (fsys w) = inr gitCfg ->
  succeeded (MkdirAll (folderPath home) (fsys w)) = true ->
  configPath home ∉ eio (fsys w) ->
  exists w', initializeAzGitConfig w = Done None w' /\
    stdout w' = stdout w /\
    nodes (fsys w') !! configPath home
    = Some (RegFile (ini_write (defaultStore (gitIdentityOf gitCfg)))).
Proof.
  intros Hh Hstat Hload Hdir Hio.
  rewrite (initializeAzGitConfig_run w home Hh), Hstat. cbv zeta.
  set (w0 := with_call (call_Stat (configPath home)) w).
  destruct (ensureAzGitFolderExists_ok w0 home Hh Hdir) as (w1 & -> & Hh1 & Hout1 & Hmk).
  change (fsys w0) with (fsys w) in Hmk.
  pose proof (MkdirAll_grows _ _ _ Hmk) as Hg.
  rewrite (grows_loadFile _ _ _ _ Hg (gitConfigPath_not_prefix home)), Hload.
  rewrite WriteFile_succeeds.
  - eexists; split; [reflexivity|]. autorewrite with world.
    split; [exact Hout1|]. cbn. apply lookup_insert_eq.
  - rewrite (grows_resolve _ _ _ _ Hg). now apply Stat_ENOENT_resolve.
  - rewrite (fs_node_nonempty _ _ (configPath_nonempty home)).
    rewrite (grows_config home _ _ Hg). now apply Stat_ENOENT.
  - rewrite parent_configPath. now apply MkdirAll_dir in Hmk.
  - destruct Hg as (_ & -> & _). exact Hio.
Qed.

(** C1: where no store file exists and Git's global configuration is
    readable (and the directory and the file can be written), one call of
    bootstrap succeeds and leaves a store with exactly one section named
    [default]; its [name] and [email] are [user.name] and [user.email],
    its [signingkey] and [gpgsign] read as [user.signingkey] and
    [commit.gpgsign]; the only other section is the unnamed one of the
    format, which has no key. *)
Theorem bootstrap_creates_default_store (w : World) (home : path) (gitCfg : IniFile) :
  env_home w = Some home ->
  Stat (configPath home) (fsys w) = inl ENOENT ->
  loadFile (gitConfigPath home) (fsys w) = inr gitCfg ->
  succeeded (MkdirAll (folderPath home) (fsys w)) = true ->
  configPath home ∉ eio (fsys w) ->
  exists w' store dflt,
    initializeAzGitConfig w = Done None w' /\
    nodes (fsys w') !! configPath home = Some (RegFile (ini_write store)) /\
    List.filter (fun s => String.eqb (sec_name s) "default") (Sections store) = [dflt] /\
    List.filter (fun s => negb (String.eqb (sec_name s) "default")) (Sections store)
      = [ {| sec_name := DefaultSection; sec_keys := [] |} ] /\
    lookupKey "name" (sec_keys dflt)
      = Some (Key_String (File_Section gitCfg "user") "name") /\
    lookupKey "email" (sec_keys dflt)
      = Some (Key_String (File_Section gitCfg "user") "email") /\
    Key_String dflt "signingkey" = Key_String (File_Section gitCfg "user") "signingkey" /\
    Key_String dflt "gpgsign" = Key_String (File_Section gitCfg "commit") "gpgsign".
Proof.
  intros Hh Hstat Hload Hdir Hio.
  destruct (bootstrap_writes_defaultStore w home gitCfg Hh Hstat Hload Hdir Hio)
    as (w' & Hrun & _ & Hnode).
  exists w', (defaultStore (gitIdentityOf gitCfg)). eexists.
  split; [exact Hrun|]. split; [exact Hnode|].
  split; [reflexivity|]. split; [reflexivity|].
  split; [reflexivity|]. split; [reflexivity|].
  unfold Key_String at 1 3. cbn [sec_keys lookupKey app String.eqb Ascii.eqb Bool.eqb].
  unfold optional_key, gitIdentityOf. cbn [SigningKey GPGSign].
  split.
  - destruct (String.eqb (Key_String (File_Section gitCfg "user") "signingkey") "") eqn:Es,
             (String.eqb (Key_String (File_Section gitCfg "commit") "gpgsign") "") eqn:Eg;
      cbn; try reflexivity; now apply eqb_empty in Es.
  - destruct (String.eqb (Key_String (File_Section gitCfg "user") "signingkey") "") eqn:Es,
             (String.eqb (Key_String (File_Section gitCfg "commit") "gpgsign") "") eqn:Eg;
      cbn; try reflexivity; now apply eqb_empty in Eg.
Qed.

(** C3: the section [default] that bootstrap writes always has the keys
    [name] and [email], with the derived values even when they are empty;
    it has the key [signingkey] exactly when the derived signing key is
    not empty, and the key [gpgsign] exactly when the derived gpgsign is
    not empty. *)
Theorem bootstrap_optional_keys (w : World) (home : path) (gitCfg : IniFile) :
  env_home w = Some home ->
  Stat (configPath home) (fsys w) = inl ENOENT ->
  loadFile (gitConfigPath home) (fsys w) = inr gitCfg ->
  succeeded (MkdirAll (folderPath home) (fsys w)) = true ->
  configPath home ∉ eio (fsys w) ->
  exists w' store dflt,
    initializeAzGitConfig w = Done None w' /\
    nodes (fsys w') !! configPath home = Some (RegFile (ini_write store)) /\
    findSection "default" store = Some dflt /\
    lookupKey "name" (sec_keys dflt) = Some (Name (gitIdentityOf gitCfg)) /\
    lookupKey "email" (sec_keys dflt) = Some (Email (gitIdentityOf gitCfg)) /\
    (lookupKey "signingkey" (sec_keys dflt) =
       if String.eqb (SigningKey (gitIdentityOf gitCfg)) "" then None
       else Some (SigningKey (gitIdentityOf gitCfg))) /\
    (lookupKey "gpgsign" (sec_keys dflt) =
       if String.eqb (GPGSign (gitIdentityOf gitCfg)) "" then None
       else Some (GPGSign (gitIdentityOf gitCfg))) /\
    (HasKey dflt "signingkey" = true <-> SigningKey (gitIdentityOf gitCfg) <> "") /\
    (HasKey dflt "gpgsign" = true <-> GPGSign (gitIdentityOf gitCfg) <> "").
Proof.
  intros Hh Hstat Hload Hdir Hio.
  destruct (bootstrap_writes_defaultStore w home gitCfg Hh Hstat Hload Hdir Hio)
    as (w' & Hrun & _ & Hnode).
  exists w', (defaultStore (gitIdentityOf gitCfg)). eexists.
  split; [exact Hrun|]. split; [exact Hnode|].
  split; [reflexivity|]. split; [reflexivity|]. split; [reflexivity|].
  unfold HasKey. cbn [sec_keys lookupKey app String.eqb Ascii.eqb Bool.eqb].
  unfold optional_key.
  destruct (String.eqb_spec (SigningKey (gitIdentityOf gitCfg)) "") as [Es|Es],
           (String.eqb_spec (GPGSign (gitIdentityOf gitCfg)) "") as [Eg|Eg];
    cbn; repeat split; try reflexivity; try discriminate;
    first [ intros _; exact Es | intros _; exact Eg
          | intros Hc; elim Hc; exact Es | intros Hc; elim Hc; exact Eg ].
Qed.

Lemma initializeAzGitConfig_present (w : World) (home : path) :
  env_home w = Some home ->
  Stat (configPath home) (fsys w) <> inl ENOENT ->
  initializeAzGitConfig w = Done None (with_call (call_Stat (configPath home)) w).
Proof.
  intros Hh Hs. rewrite (initializeAzGitConfig_run w home Hh). cbv zeta.
  destruct (Stat (configPath home) (fsys w)) as [[]|n]; try reflexivity.
  now elim Hs.
Qed.

(** C4: when the store file exists, bootstrap returns success and its
    only action is the [Stat] that found the file: the file system and
    the output are as before; after a second call they still are, and
    the store file holds the same bytes. *)
Theorem bootstrap_idempotent (w : World) (home : path) (data : string) :
  env_home w = Some home ->
  nodes (fsys w) !! configPath home = Some (RegFile data) ->
  exists w1 w2,
    initializeAzGitConfig w = Done None w1 /\
    fsys w1 = fsys w /\ stdout w1 = stdout w /\
    calls w1 = calls w ++ [call_Stat (configPath home)] /\
    initializeAzGitConfig w1 = Done None w2 /\
    fsys w2 = fsys w /\ stdout w2 = stdout w /\
    nodes (fsys w2) !! configPath home = Some (RegFile data).
Proof.
  intros Hh Hfile.
  pose proof (Stat_present _ _ _ Hfile) as Hs.
  exists (with_call (call_Stat (configPath home)) w),
         (with_call (call_Stat (configPath home))
            (with_call (call_Stat (configPath home)) w)).
  split; [now apply initializeAzGitConfig_present|].
  repeat split; try exact Hfile.
  now apply initializeAzGitConfig_present.
Qed.

(** A successful bootstrap, whichever way it went, makes the next one a
    no-op. *)
Lemma bootstrap_then_noop (w w1 : World) (home : path) :
  env_home w = Some home ->
  initializeAzGitConfig w = Done None w1 ->
  initializeAzGitConfig w1 = Done None (with_call (call_Stat (configPath home)) w1).
Proof.
  intros Hh. rewrite (initializeAzGitConfig_run w home Hh). cbv zeta.
  destruct (Stat (configPath home) (fsys w)) as [e|n] eqn:Es.
  - destruct (decide (e = ENOENT)) as [->|Hne].
    + destruct (ensureAzGitFolderExists_frame
                  (with_call (call_Stat (configPath home)) w) home Hh)
        as (r & w0 & -> & Hh0 & _).
      destruct r as [e|]; [discriminate|].
      destruct (loadFile (gitConfigPath home) (fsys w0)); [discriminate|].
      intros [= Hfst <-]. apply initializeAzGitConfig_present; [exact Hh0|].
      autorewrite with world. eapply Stat_present. now apply WriteFile_ok.
    + assert (Hgo : Done (@None error) (with_call (call_Stat (configPath home)) w)
                    = Done None w1 ->
                    initializeAzGitConfig w1
                    = Done None (with_call (call_Stat (configPath home)) w1)).
      { intros [= <-]. apply initializeAzGitConfig_present; [exact Hh|].
        autorewrite with world. rewrite Es. congruence. }
      destruct e; try exact Hgo. now elim Hne.
  - intros [= <-]. apply initializeAzGitConfig_present; [exact Hh|].
    autorewrite with world. now rewrite Es.
Qed.

(** C9: a [Stat] of the store file that fails with anything but
    not-exist makes bootstrap return success at once, the [Stat] being
    its only call (no directory made, no file read or written); the
    directory check of [ensureAzGitFolderExists] succeeds the same way. *)
Theorem stat_failure_reads_as_present (w : World) (home : path) (e : Errno) :
  env_home w = Some home ->
  e <> ENOENT ->
  (Stat (configPath home) (fsys w) = inl e ->
   initializeAzGitConfig w = Done None (with_call (call_Stat (configPath home)) w)) /\
  (Stat (folderPath home) (fsys w) = inl e ->
   ensureAzGitFolderExists w = Done None (with_call (call_Stat (folderPath home)) w)).
Proof.
  intros Hh Hne. split; intros Hs.
  - apply initializeAzGitConfig_present; [exact Hh|]. rewrite Hs. congruence.
  - rewrite (ensureAzGitFolderExists_run w home Hh), Hs. cbv zeta.
    destruct e; try reflexivity. now elim Hne.
Qed.

Lemma loadFile_missing (p : path) (f : FS) :
  Stat p f = inl ENOENT -> loadFile p f = inl (PathError "open" p ENOENT).
Proof.
  intros Hs. unfold loadFile, ReadFile.
  rewrite (Stat_ENOENT_resolve _ _ Hs).
  unfold Stat in Hs. rewrite (Stat_ENOENT_resolve _ _ Hs) in Hs.
  now destruct (fs_node f p).
Qed.

Lemma loadFile_malformed (p : path) (f : FS) (data msg : string) :
  ReadFile p f = inr data -> ini_parse data = inl msg ->
  loadFile p f = inl (IniError msg).
Proof. intros Hr Hp. unfold loadFile. now rewrite Hr, Hp. Qed.

(** C5: with no store, when Git's global configuration cannot be loaded
    (the file is missing, or it does not parse), bootstrap fails with the
    load failure wrapped in [failed to read ~/.gitconfig: ] and there is
    still no store file; and whenever bootstrap fails without having
    called [SaveTo], there was no store file and there is none after. *)
Theorem bootstrap_failure_leaves_no_store (w : World) (home : path) :
  env_home w = Some home ->
  (forall cause,
     Stat (configPath home) (fsys w) = inl ENOENT ->
     succeeded (MkdirAll (folderPath home) (fsys w)) = true ->
     loadFile (gitConfigPath home) (fsys w) = inl cause ->
     exists w', initializeAzGitConfig w
                = Done (Some (Errorf "failed to read ~/.gitconfig: " cause)) w' /\
       nodes (fsys w') !! configPath home = None) /\
  (Stat (gitConfigPath home) (fsys w) = inl ENOENT ->
   loadFile (gitConfigPath home) (fsys w)
   = inl (PathError "open" (gitConfigPath home) ENOENT)) /\
  (forall data msg,
     ReadFile (gitConfigPath home) (fsys w) = inr data -> ini_parse data = inl msg ->
     loadFile (gitConfigPath home) (fsys w) = inl (IniError msg)) /\
  (forall err w' cs,
     initializeAzGitConfig w = Done (Some err) w' ->
     calls w' = calls w ++ cs -> (forall p, call_SaveTo p ∉ cs) ->
     nodes (fsys w) !! configPath home = None /\
     nodes (fsys w') !! configPath home = None).
Proof.
  intros Hh. split; [|split; [apply loadFile_missing|split; [apply loadFile_malformed|]]].
  - intros cause Hstat Hdir Hload.
    rewrite (initializeAzGitConfig_run w home Hh), Hstat. cbv zeta.
    destruct (ensureAzGitFolderExists_ok
                (with_call (call_Stat (configPath home)) w) home Hh Hdir)
      as (w1 & -> & Hh1 & _ & Hmk).
    autorewrite with world in Hmk. pose proof (MkdirAll_grows _ _ _ Hmk) as Hg.
    rewrite (grows_loadFile _ _ _ _ Hg (gitConfigPath_not_prefix home)), Hload.
    eexists; split; [reflexivity|]. autorewrite with world.
    rewrite (grows_config home _ _ Hg). now apply Stat_ENOENT.
  - intros err w' cs. rewrite (initializeAzGitConfig_run w home Hh). cbv zeta.
    destruct (Stat (configPath home) (fsys w)) as [e|n] eqn:Es; [|discriminate].
    destruct (decide (e = ENOENT)) as [->|Hne]; [|destruct e; try discriminate; now elim Hne].
    pose proof (Stat_ENOENT _ _ Es) as Hnone.
    destruct (ensureAzGitFolderExists_frame
                (with_call (call_Stat (configPath home)) w) home Hh)
      as (r & w1 & -> & Hh1 & _ & Hg & cs1 & Hcs1 & Hno1).
    autorewrite with world in Hg, Hcs1.
    destruct r as [e|].
    + intros [= _ <-] _ _. split; [exact Hnone|].
      now rewrite (grows_config home _ _ Hg).
    + destruct (loadFile (gitConfigPath home) (fsys w1)) as [cause|gitCfg].
      * intros [= _ <-] _ _. split; [exact Hnone|]. autorewrite with world.
        now rewrite (grows_config home _ _ Hg).
      * intros [= _ <-] Hcalls Hno. exfalso.
        autorewrite with world in Hcalls. rewrite Hcs1, <- !app_assoc in Hcalls.
        apply app_inv_head in Hcalls. subst cs.
        apply (Hno (configPath home)).
        rewrite !elem_of_app. right. right. right. apply list_elem_of_singleton.
        reflexivity.
Qed.

End Properties.

(** * Further properties of the program *)

Section FurtherProperties.

Context `{!Codec}.

(** ** The file system under a write *)

Lemma WriteFile_other (p q : path) (data : string) (f : FS) :
  p <> q -> nodes (snd (WriteFile p data f)) !! q = nodes f !! q.
Proof.
  intros Hne. unfold WriteFile. destruct (resolve f p); [reflexivity|].
  destruct (fs_node f p) as [[|d]|]; [reflexivity| |];
    (destruct (fs_node f (parent p)) as [[|d']|]; [|reflexivity|reflexivity];
     destruct (decide (p ∈ eio f)); cbn; now rewrite lookup_insert_ne).
Qed.

Lemma ancestors_proper (p q : path) : In q (ancestors p) -> q <> p.
Proof.
  unfold ancestors. intros (n & <- & Hn%in_seq)%in_map_iff Heq.
  apply (f_equal (@length string)) in Heq. rewrite length_take in Heq. lia.
Qed.

Lemma resolve_set_node (p : path) (n : node) (f : FS) :
  resolve (set_node p n f) p = resolve f p.
Proof.
  unfold resolve. cbn [eacces set_node].
  assert (Hx : forall l, (forall q, In q l -> q <> p) ->
             existsb (fun q => is_regular (fs_node (set_node p n f) q)) l
             = existsb (fun q => is_regular (fs_node f q)) l).
  { induction l as [|q l IH]; intros Hl; [reflexivity|]. cbn [existsb].
    rewrite IH by (intros q' Hq'; apply Hl; now right). f_equal.
    destruct q as [|c q]; [reflexivity|]. cbn.
    rewrite lookup_insert_ne; [reflexivity|].
    intros Heq. now apply (Hl (c :: q) (or_introl eq_refl)). }
  now rewrite (Hx (ancestors p) (ancestors_proper p)).
Qed.

Lemma ReadFile_written (p : path) (data : string) (f : FS) :
  p <> [] -> resolve f p = None ->
  ReadFile p (set_node p (RegFile data) f) = inr data.
Proof.
  intros Hne Hr. unfold ReadFile. rewrite resolve_set_node, Hr.
  rewrite (fs_node_nonempty _ _ Hne). cbn. now rewrite lookup_insert_eq.
Qed.

Lemma Stat_grown_dir (p : path) (f f' : FS) :
  Stat p f = inl ENOENT -> MkdirAll p f = inr f' -> Stat p f' = inr Dir.
Proof.
  intros Hs Hm. unfold Stat.
  rewrite (grows_resolve p f f' p (MkdirAll_grows _ _ _ Hm)).
  rewrite (Stat_ENOENT_resolve _ _ Hs). now rewrite (MkdirAll_dir _ _ _ Hm).
Qed.

Lemma grows_keeps (p : path) (f f' : FS) (q : path) (n : node) :
  grows_towards p f f' -> nodes f !! q = Some n -> nodes f' !! q = Some n.
Proof.
  intros (_ & _ & Hn) Hq. destruct (Hn q) as [->|(Hnone & _)]; congruence.
Qed.

(** ** Without a home directory *)

(** X1: when the home directory cannot be determined, every entry point
    of the program panics with the message of [userHomeDir]; none returns
    an error value. *)
Theorem home_undefined_panics (w : World) (cmd_Help : M (option error)) :
  env_home w = None ->
  let msg := "Failed to get user's home directory: $HOME is not defined" in
  initializeAzGitConfig w = Panic msg /\
  listIdentities w = Panic msg /\
  rootCmd_RunE cmd_Help w = Panic msg /\
  ensureAzGitFolderExists w = Panic msg /\
  fetchDefaultGitIdentity w = Panic msg /\
  loadAzGitConfig w = Panic msg.
Proof.
  intros Hh msg.
  assert (Hinit : initializeAzGitConfig w = Panic msg).
  { unfold initializeAzGitConfig, getAzgitConfigPath, userHomeDir, bind. now rewrite Hh. }
  repeat split.
  - exact Hinit.
  - unfold listIdentities, loadAzGitConfig, getAzgitConfigPath, userHomeDir, bind.
    now rewrite Hh.
  - unfold rootCmd_RunE, bind. now rewrite Hinit.
  - unfold ensureAzGitFolderExists, userHomeDir, bind. now rewrite Hh.
  - unfold fetchDefaultGitIdentity, userHomeDir, bind. now rewrite Hh.
  - unfold loadAzGitConfig, getAzgitConfigPath, userHomeDir, bind. now rewrite Hh.
Qed.

(** ** The folder of the store *)

(** X2: when the folder is missing and can be made,
    [ensureAzGitFolderExists] returns nil and leaves the folder as a
    directory, which is the parent of the path of the store; every node
    that was there is kept, and what is new is a directory on the way to
    the folder. *)
Theorem ensure_creates_the_folder (w : World) (home : path) :
  env_home w = Some home ->
  Stat (folderPath home) (fsys w) = inl ENOENT ->
  succeeded (MkdirAll (folderPath home) (fsys w)) = true ->
  exists w1, ensureAzGitFolderExists w = Done None w1 /\
    Stat (folderPath home) (fsys w1) = inr Dir /\
    fs_node (fsys w1) (parent (configPath home)) = Some Dir /\
    (forall q n, nodes (fsys w) !! q = Some n -> nodes (fsys w1) !! q = Some n) /\
    (forall q, nodes (fsys w) !! q = None -> nodes (fsys w1) !! q <> None ->
               nodes (fsys w1) !! q = Some Dir /\ q `prefix_of` folderPath home) /\
    calls w1 = calls w ++ [call_Stat (folderPath home); call_MkdirAll (folderPath home)].
Proof.
  intros Hh Hs Hok. rewrite (ensureAzGitFolderExists_run w home Hh), Hs. cbv zeta.
  destruct (MkdirAll (folderPath home) (fsys w)) as [e|f1] eqn:Hm; [discriminate|].
  pose proof (MkdirAll_grows _ _ _ Hm) as Hg.
  eexists; split; [reflexivity|]. autorewrite with world.
  split; [now apply (Stat_grown_dir _ (fsys w))|].
  split; [rewrite parent_configPath; now apply MkdirAll_dir in Hm|].
  split; [intros q n; now apply grows_keeps with (p := folderPath home)|].
  split; [|now rewrite <- app_assoc].
  intros q Hnone Hsome. destruct Hg as (_ & _ & Hn).
  destruct (Hn q) as [Heq|(_ & Hd & Hp)]; [congruence|auto].
Qed.

(** X3: a call of [ensureAzGitFolderExists] that returned nil makes the
    next call a mere [Stat]: nil again, the file system untouched. *)
Theorem ensure_twice (w w1 : World) (home : path) :
  env_home w = Some home ->
  ensureAzGitFolderExists w = Done None w1 ->
  ensureAzGitFolderExists w1
  = Done None (with_call (call_Stat (folderPath home)) w1).
Proof.
  intros Hh. rewrite (ensureAzGitFolderExists_run w home Hh). cbv zeta.
  assert (Hsame : forall w', env_home w' = Some home ->
            (forall e, Stat (folderPath home) (fsys w') = inl e -> e <> ENOENT) ->
            ensureAzGitFolderExists w'
            = Done None (with_call (call_Stat (folderPath home)) w')).
  { intros w' Hh' Hs'. rewrite (ensureAzGitFolderExists_run w' home Hh'). cbv zeta.
    destruct (Stat (folderPath home) (fsys w')) as [e|n] eqn:Es'; [|reflexivity].
    specialize (Hs' e eq_refl). now destruct e. }
  destruct (Stat (folderPath home) (fsys w)) as [e|n] eqn:Es.
  - destruct (decide (e = ENOENT)) as [->|Hne].
    + destruct (MkdirAll (folderPath home) (fsys w)) as [e1|f1] eqn:Hm; [discriminate|].
      intros [= <-]. apply Hsame; [exact Hh|]. autorewrite with world.
      intros e He. rewrite (Stat_grown_dir _ _ _ Es Hm) in He. discriminate.
    + assert (Hgo : Done (@None error) (with_call (call_Stat (folderPath home)) w)
                    = Done None w1 ->
                    ensureAzGitFolderExists w1
                    = Done None (with_call (call_Stat (folderPath home)) w1)).
      { intros [= <-]. apply Hsame; [exact Hh|]. autorewrite with world.
        intros e' He'. congruence. }
      destruct e; try exact Hgo. now elim Hne.
  - intros [= <-]. apply Hsame; [exact Hh|]. autorewrite with world.
    intros e He. congruence.
Qed.

(** X4: [ensureAzGitFolderExists] returns an error only when the folder
    was reported missing and [MkdirAll] failed, and the error is that of
    [MkdirAll], unwrapped; in particular a regular file in the place of
    the folder is accepted: nil, and the file is left where it is. *)
Theorem ensure_fails_only_in_mkdir (w : World) (home : path) :
  env_home w = Some home ->
  (forall e w1, ensureAzGitFolderExists w = Done (Some e) w1 ->
     Stat (folderPath home) (fsys w) = inl ENOENT /\
     MkdirAll (folderPath home) (fsys w) = inl e) /\
  (forall data, Stat (folderPath home) (fsys w) = inr (RegFile data) ->
     ensureAzGitFolderExists w
     = Done None (with_call (call_Stat (folderPath home)) w)).
Proof.
  intros Hh. rewrite (ensureAzGitFolderExists_run w home Hh). cbv zeta. split.
  - intros e w1.
    destruct (Stat (folderPath home) (fsys w)) as [[]|n]; try discriminate.
    destruct (MkdirAll (folderPath home) (fsys w)) as [e1|f1]; [|discriminate].
    intros [= -> _]. auto.
  - intros data ->. reflexivity.
Qed.

(** ** Reading Git's configuration *)

Lemma fetchDefaultGitIdentity_run (w : World) (home : path) :
  env_home w = Some home ->
  fetchDefaultGitIdentity w =
  Done (match loadFile (gitConfigPath home) (fsys w) with
        | inl err =>
            ({| Name := ""; Email := ""; SigningKey := ""; GPGSign := "" |},
             Some (Errorf "failed to read ~/.gitconfig: " err))
        | inr gitCfg => (gitIdentityOf gitCfg, None)
        end)
       (with_call (call_Load (gitConfigPath home)) w).
Proof.
  intros Hh. unfold fetchDefaultGitIdentity, userHomeDir, ini_Load, bind, ret, log, get_fs.
  rewrite Hh. step.
  change (filepath_Join [home; [".gitconfig"]]) with (gitConfigPath home).
  now destruct (loadFile (gitConfigPath home) (fsys w)).
Qed.

(** X5: [fetchDefaultGitIdentity] makes one call, the load of
    [~/.gitconfig], and changes nothing.  A failed load gives the zero
    identity and the failure wrapped in [failed to read ~/.gitconfig: ];
    a configuration that loads never gives an error: the fields are the
    values of the [user] and [commit] sections, and a missing section
    gives empty fields. *)
Theorem fetch_identity_of_gitconfig (w : World) (home : path) :
  env_home w = Some home ->
  exists r,
    fetchDefaultGitIdentity w
    = Done r (with_call (call_Load (gitConfigPath home)) w) /\
    (forall cause, loadFile (gitConfigPath home) (fsys w) = inl cause ->
       r = ({| Name := ""; Email := ""; SigningKey := ""; GPGSign := "" |},
            Some (Errorf "failed to read ~/.gitconfig: " cause))) /\
    (forall gitCfg, loadFile (gitConfigPath home) (fsys w) = inr gitCfg ->
       snd r = None /\
       (forall user, findSection "user" gitCfg = Some user ->
          Name (fst r) = Key_String user "name" /\
          Email (fst r) = Key_String user "email" /\
          SigningKey (fst r) = Key_String user "signingkey") /\
       (forall commit, findSection "commit" gitCfg = Some commit ->
          GPGSign (fst r) = Key_String commit "gpgsign") /\
       (findSection "user" gitCfg = None ->
          Name (fst r) = "" /\ Email (fst r) = "" /\ SigningKey (fst r) = "") /\
       (findSection "commit" gitCfg = None -> GPGSign (fst r) = "")).
Proof.
  intros Hh. rewrite (fetchDefaultGitIdentity_run w home Hh).
  eexists; split; [reflexivity|]. split.
  - intros cause ->. reflexivity.
  - intros gitCfg ->. cbn [fst snd]. unfold gitIdentityOf, File_Section.
    cbn [Name Email SigningKey GPGSign].
    split; [reflexivity|]. repeat split; intros; subst;
      repeat match goal with
             | Hf : findSection _ _ = _ |- _ => rewrite Hf
             end; reflexivity.
Qed.

(** ** A bootstrap that reaches the write *)

Lemma bootstrap_reaches_write
    (w : World) (home : path) (gitCfg : IniFile) (f1 : FS) :
  env_home w = Some home ->
  Stat (configPath home) (fsys w) = inl ENOENT ->
  loadFile (gitConfigPath home) (fsys w) = inr gitCfg ->
  MkdirAll (folderPath home) (fsys w) = inr f1 ->
  exists w',
    initializeAzGitConfig w
    = Done (fst (WriteFile (configPath home)
                   (ini_write (defaultStore (gitIdentityOf gitCfg))) f1)) w' /\
    fsys w' = snd (WriteFile (configPath home)
                     (ini_write (defaultStore (gitIdentityOf gitCfg))) f1) /\
    env_home w' = Some home /\ stdout w' = stdout w /\
    calls w' = calls w ++
      [call_Stat (configPath home); call_Stat (folderPath home)]
      ++ match Stat (folderPath home) (fsys w) with
         | inl ENOENT => [call_MkdirAll (folderPath home)]
         | _ => []
         end
      ++ [call_Load (gitConfigPath home); call_SaveTo (configPath home)].
Proof.
  intros Hh Hstat Hload Hm.
  pose proof (MkdirAll_grows _ _ _ Hm) as Hg.
  rewrite (initializeAzGitConfig_run w home Hh), Hstat. cbv zeta.
  rewrite (ensureAzGitFolderExists_run (with_call (call_Stat (configPath home)) w) home Hh).
  cbv zeta. autorewrite with world.
  destruct (Stat (folderPath home) (fsys w)) as [e|n] eqn:Es.
  - destruct (decide (e = ENOENT)) as [->|Hne].
    + rewrite Hm. autorewrite with world.
      rewrite (grows_loadFile _ _ _ _ Hg (gitConfigPath_not_prefix home)), Hload.
      eexists; split; [reflexivity|]. autorewrite with world.
      repeat split; try assumption. now rewrite <- !app_assoc.
    + apply Stat_error_resolve in Es; [|exact Hne].
      apply MkdirAll_unresolved in Es. rewrite Hm in Es. discriminate.
  - destruct n as [|d].
    + rewrite (MkdirAll_present _ _ Es) in Hm. injection Hm as <-.
      autorewrite with world. rewrite Hload.
      eexists; split; [reflexivity|]. autorewrite with world.
      repeat split; try assumption. now rewrite <- !app_assoc.
    + unfold MkdirAll in Hm. rewrite MkdirAll_rev_eq, rev_involutive, Es in Hm.
      discriminate.
Qed.

Lemma store_path_writable (home : path) (f f1 : FS) :
  Stat (configPath home) f = inl ENOENT ->
  MkdirAll (folderPath home) f = inr f1 ->
  resolve f1 (configPath home) = None /\
  fs_node f1 (configPath home) = None /\
  fs_node f1 (parent (configPath home)) = Some Dir /\
  eio f1 = eio f.
Proof.
  intros Hstat Hm. pose proof (MkdirAll_grows _ _ _ Hm) as Hg.
  split; [rewrite (grows_resolve _ _ _ _ Hg); now apply Stat_ENOENT_resolve|].
  split; [rewrite (fs_node_nonempty _ _ (configPath_nonempty home)),
            (grows_config home _ _ Hg); now apply Stat_ENOENT|].
  split; [rewrite parent_configPath; now apply MkdirAll_dir in Hm|].
  now destruct Hg as (_ & -> & _).
Qed.

Lemma defaultStore_values (i : GitIdentity) :
  let dflt := {| sec_name := "default";
                 sec_keys := [("name", Name i); ("email", Email i)]
                             ++ optional_key "signingkey" (SigningKey i)
                             ++ optional_key "gpgsign" (GPGSign i) |} in
  Key_String dflt "name" = Name i /\ Key_String dflt "email" = Email i /\
  Key_String dflt "signingkey" = SigningKey i /\ Key_String dflt "gpgsign" = GPGSign i.
Proof.
  unfold Key_String, optional_key. cbn [sec_keys].
  destruct (String.eqb_spec (SigningKey i) "") as [Es|Es],
           (String.eqb_spec (GPGSign i) "") as [Eg|Eg];
    cbn; repeat split; congruence.
Qed.

(** X6: bootstrap, then the listing.  With a codec that reads back the
    store it wrote, a first bootstrap followed by [listIdentities] prints
    the title and, unless the derived name and email are both empty, the
    one block of [default] with the values taken from Git's
    configuration. *)
Theorem bootstrap_then_list (w : World) (home : path) (gitCfg : IniFile) :
  env_home w = Some home ->
  Stat (configPath home) (fsys w) = inl ENOENT ->
  loadFile (gitConfigPath home) (fsys w) = inr gitCfg ->
  succeeded (MkdirAll (folderPath home) (fsys w)) = true ->
  configPath home ∉ eio (fsys w) ->
  ini_parse (ini_write (defaultStore (gitIdentityOf gitCfg)))
  = inr (defaultStore (gitIdentityOf gitCfg)) ->
  let i := gitIdentityOf gitCfg in
  exists w1 w2,
    initializeAzGitConfig w = Done None w1 /\
    listIdentities w1 = Done None w2 /\
    fsys w2 = fsys w1 /\
    stdout w2 = stdout w ++
      ("List of Identities:" +:+ nl)
      :: (if String.eqb (Name i) "" && String.eqb (Email i) "" then []
          else [ unlines
                   ([ ""; "Identity [default]:";
                      tab +:+ "Name: " +:+ Name i;
                      tab +:+ "Email: " +:+ Email i ]
                    ++ (if String.eqb (SigningKey i) "" then []
                        else [tab +:+ "Signing Key: " +:+ SigningKey i])
                    ++ (if String.eqb (GPGSign i) "" then []
                        else [tab +:+ "GPG Sign: " +:+ GPGSign i])
                    ++ [ "" ]) ]).
Proof.
  intros Hh Hstat Hload Hdir Hio Hround i.
  destruct (MkdirAll (folderPath home) (fsys w)) as [e|f1] eqn:Hm; [discriminate|].
  destruct (bootstrap_reaches_write w home gitCfg f1 Hh Hstat Hload Hm)
    as (w1 & Hrun & Hfs & Hh1 & Hout1 & _).
  destruct (store_path_writable home _ _ Hstat Hm) as (Hr & Hn & Hp & He).
  rewrite WriteFile_succeeds in Hrun, Hfs by (try assumption; now rewrite He).
  cbn [fst snd] in Hrun, Hfs.
  assert (Hl : loadFile (configPath home) (fsys w1) = inr (defaultStore i)).
  { unfold loadFile. rewrite Hfs.
    rewrite (ReadFile_written _ _ _ (configPath_nonempty home) Hr). now rewrite Hround. }
  destruct (listIdentities_stdout w1 home _ Hh1 Hl) as (w2 & Hrun2 & Hfs2 & Hout2).
  exists w1, w2. split; [exact Hrun|]. split; [exact Hrun2|]. split; [exact Hfs2|].
  rewrite Hout2, Hout1. do 2 f_equal.
  unfold Sections, defaultStore. cbn [List.filter].
  change (displayed {| sec_name := DefaultSection; sec_keys := [] |}) with false.
  cbv iota. unfold displayed.
  destruct (defaultStore_values i) as (Hv1 & Hv2 & Hv3 & Hv4). rewrite Hv1, Hv2.
  destruct (String.eqb (Name i) ""), (String.eqb (Email i) "");
    cbn [negb orb andb map]; try reflexivity;
    unfold identityBlock, block_lines, optional_line;
    rewrite Hv1, Hv2, Hv3, Hv4; reflexivity.
Qed.

(** X7: with a home directory, [listIdentities] always returns; its one
    call is the load of the store, it leaves the file system as it found
    it, and when it returns an error it has written nothing. *)
Theorem list_is_read_only (w : World) (home : path) :
  env_home w = Some home ->
  exists r w', listIdentities w = Done r w' /\
    fsys w' = fsys w /\ env_home w' = env_home w /\
    calls w' = calls w ++ [call_Load (configPath home)] /\
    (r <> None -> stdout w' = stdout w).
Proof.
  intros Hh. rewrite (listIdentities_run w home Hh). cbv zeta.
  destruct (loadFile (configPath home) (fsys w)) as [err|cfg].
  - eexists _, _. split; [reflexivity|]. now autorewrite with world.
  - eexists _, _. split; [reflexivity|].
    destruct (with_writes_frame
      (map identityBlock (List.filter displayed (Sections cfg)))
      (with_write ("List of Identities:" +:+ nl)
         (with_call (call_Load (configPath home)) w))) as (-> & -> & -> & _).
    autorewrite with world. repeat split. intros Hr. now elim Hr.
Qed.

Lemma configPath_not_gitConfigPath (home : path) : configPath home <> gitConfigPath home.
Proof.
  intros Heq. apply (f_equal (@length string)) in Heq.
  unfold configPath, gitConfigPath in Heq. rewrite !length_app in Heq. cbn in Heq. lia.
Qed.

(** X8: with a home directory, bootstrap always returns, and whatever it
    returns it has written nothing to standard output, has kept every
    node of the file system that was there, and has left
    [~/.gitconfig] as it was. *)
Theorem bootstrap_keeps_what_exists (w : World) (home : path) :
  env_home w = Some home ->
  exists r w', initializeAzGitConfig w = Done r w' /\
    stdout w' = stdout w /\ env_home w' = env_home w /\
    (forall q n, nodes (fsys w) !! q = Some n -> nodes (fsys w') !! q = Some n) /\
    nodes (fsys w') !! gitConfigPath home = nodes (fsys w) !! gitConfigPath home.
Proof.
  intros Hh. rewrite (initializeAzGitConfig_run w home Hh). cbv zeta.
  destruct (Stat (configPath home) (fsys w)) as [e|n] eqn:Es;
    [|eexists _, _; split; [reflexivity|]; now autorewrite with world].
  destruct (decide (e = ENOENT)) as [->|Hne];
    [|destruct e; try (eexists _, _; split; [reflexivity|]; now autorewrite with world);
      now elim Hne].
  pose proof (Stat_ENOENT _ _ Es) as Hnone.
  destruct (ensureAzGitFolderExists_frame
              (with_call (call_Stat (configPath home)) w) home Hh)
    as (r & w1 & -> & Hh1 & Hout & Hg & _).
  autorewrite with world in Hg, Hout.
  assert (Hgit : nodes (fsys w1) !! gitConfigPath home
                 = nodes (fsys w) !! gitConfigPath home).
  { destruct Hg as (_ & _ & Hn). destruct (Hn (gitConfigPath home)) as [->|(_ & _ & Hp)];
      [reflexivity|]. now apply gitConfigPath_not_prefix in Hp. }
  destruct r as [e|].
  - eexists _, _. split; [reflexivity|]. rewrite Hh. repeat split; try assumption.
    intros q n. now apply grows_keeps with (p := folderPath home).
  - destruct (loadFile (gitConfigPath home) (fsys w1)) as [cause|gitCfg].
    + eexists _, _. split; [reflexivity|]. autorewrite with world. rewrite Hh.
      repeat split; try assumption.
      intros q n. now apply grows_keeps with (p := folderPath home).
    + eexists _, _. split; [reflexivity|]. autorewrite with world. rewrite Hh.
      repeat split; try assumption.
      * intros q n Hq. rewrite WriteFile_other.
        -- now apply grows_keeps with (p := folderPath home) (f := fsys w).
        -- intros <-. congruence.
      * rewrite WriteFile_other; [exact Hgit|apply configPath_not_gitConfigPath].
Qed.

(** X9: once bootstrap has returned nil, whichever way it went, the next
    bootstrap returns nil too, its only call is the [Stat] of the store
    and the file system and the output stay as they are. *)
Theorem bootstrap_success_is_final (w w1 : World) (home : path) :
  env_home w = Some home ->
  initializeAzGitConfig w = Done None w1 ->
  exists w2, initializeAzGitConfig w1 = Done None w2 /\
    fsys w2 = fsys w1 /\ stdout w2 = stdout w1 /\
    calls w2 = calls w1 ++ [call_Stat (configPath home)].
Proof.
  intros Hh Hrun. rewrite (bootstrap_then_noop w w1 home Hh Hrun).
  eexists. split; [reflexivity|]. now autorewrite with world.
Qed.

Lemma WriteFile_interrupted (p : path) (data : string) (f : FS) :
  resolve f p = None -> fs_node f p = None ->
  fs_node f (parent p) = Some Dir -> p ∈ eio f ->
  WriteFile p data f = (Some (PathError "write" p EIO), set_node p (RegFile "") f).
Proof.
  intros Hr Hn Hp Hio. unfold WriteFile. rewrite Hr, Hn, Hp.
  now destruct (decide (p ∈ eio f)).
Qed.

(** X10: when the write of the store fails after the file was opened,
    bootstrap returns the error of [SaveTo] as it is, an empty store file
    stays behind, and the next bootstrap, finding a file, returns nil
    without writing it again. *)
Theorem interrupted_write_is_not_repaired
    (w : World) (home : path) (gitCfg : IniFile) :
  env_home w = Some home ->
  Stat (configPath home) (fsys w) = inl ENOENT ->
  loadFile (gitConfigPath home) (fsys w) = inr gitCfg ->
  succeeded (MkdirAll (folderPath home) (fsys w)) = true ->
  configPath home ∈ eio (fsys w) ->
  exists w1,
    initializeAzGitConfig w
    = Done (Some (PathError "write" (configPath home) EIO)) w1 /\
    nodes (fsys w1) !! configPath home = Some (RegFile "") /\
    initializeAzGitConfig w1
    = Done None (with_call (call_Stat (configPath home)) w1).
Proof.
  intros Hh Hstat Hload Hdir Hio.
  destruct (MkdirAll (folderPath home) (fsys w)) as [e|f1] eqn:Hm; [discriminate|].
  destruct (bootstrap_reaches_write w home gitCfg f1 Hh Hstat Hload Hm)
    as (w1 & Hrun & Hfs & Hh1 & _).
  destruct (store_path_writable home _ _ Hstat Hm) as (Hr & Hn & Hp & He).
  rewrite WriteFile_interrupted in Hrun, Hfs by (try assumption; now rewrite He).
  cbn [fst snd] in Hrun, Hfs.
  assert (Hfile : nodes (fsys w1) !! configPath home = Some (RegFile "")).
  { rewrite Hfs. cbn. apply lookup_insert_eq. }
  exists w1. split; [exact Hrun|]. split; [exact Hfile|].
  apply initializeAzGitConfig_present; [exact Hh1|]. now apply Stat_present in Hfile.
Qed.

Lemma bootstrap_read_failure
    (w : World) (home : path) (cause : error) (f1 : FS) :
  env_home w = Some home ->
  Stat (configPath home) (fsys w) = inl ENOENT ->
  MkdirAll (folderPath home) (fsys w) = inr f1 ->
  loadFile (gitConfigPath home) (fsys w) = inl cause ->
  exists w',
    initializeAzGitConfig w
    = Done (Some (Errorf "failed to read ~/.gitconfig: " cause)) w' /\
    fsys w' = f1 /\ stdout w' = stdout w /\
    calls w' = calls w ++
      [call_Stat (configPath home); call_Stat (folderPath home)]
      ++ match Stat (folderPath home) (fsys w) with
         | inl ENOENT => [call_MkdirAll (folderPath home)]
         | _ => []
         end
      ++ [call_Load (gitConfigPath home)].
Proof.
  intros Hh Hstat Hm Hload.
  pose proof (MkdirAll_grows _ _ _ Hm) as Hg.
  rewrite (initializeAzGitConfig_run w home Hh), Hstat. cbv zeta.
  rewrite (ensureAzGitFolderExists_run (with_call (call_Stat (configPath home)) w) home Hh).
  cbv zeta. autorewrite with world.
  destruct (Stat (folderPath home) (fsys w)) as [e|n] eqn:Es.
  - destruct (decide (e = ENOENT)) as [->|Hne].
    + rewrite Hm. autorewrite with world.
      rewrite (grows_loadFile _ _ _ _ Hg (gitConfigPath_not_prefix home)), Hload.
      eexists; split; [reflexivity|]. autorewrite with world.
      repeat split. now rewrite <- !app_assoc.
    + apply Stat_error_resolve in Es; [|exact Hne].
      apply MkdirAll_unresolved in Es. rewrite Hm in Es. discriminate.
  - destruct n as [|d].
    + rewrite (MkdirAll_present _ _ Es) in Hm. injection Hm as <-.
      autorewrite with world. rewrite Hload.
      eexists; split; [reflexivity|]. autorewrite with world.
      repeat split. now rewrite <- !app_assoc.
    + unfold MkdirAll in Hm. rewrite MkdirAll_rev_eq, rev_involutive, Es in Hm.
      discriminate.
Qed.

(** X11: the folder is made before Git's configuration is read: a
    bootstrap that fails on [~/.gitconfig] has already created the folder
    of the store, and leaves it behind. *)
Theorem failed_read_leaves_the_folder (w : World) (home : path) (cause : error) :
  env_home w = Some home ->
  Stat (configPath home) (fsys w) = inl ENOENT ->
  Stat (folderPath home) (fsys w) = inl ENOENT ->
  succeeded (MkdirAll (folderPath home) (fsys w)) = true ->
  loadFile (gitConfigPath home) (fsys w) = inl cause ->
  exists w',
    initializeAzGitConfig w
    = Done (Some (Errorf "failed to read ~/.gitconfig: " cause)) w' /\
    nodes (fsys w) !! folderPath home = None /\
    Stat (folderPath home) (fsys w') = inr Dir /\
    calls w' = calls w ++
      [call_Stat (configPath home); call_Stat (folderPath home);
       call_MkdirAll (folderPath home); call_Load (gitConfigPath home)].
Proof.
  intros Hh Hstat Hfolder Hdir Hload.
  destruct (MkdirAll (folderPath home) (fsys w)) as [e|f1] eqn:Hm; [discriminate|].
  destruct (bootstrap_read_failure w home cause f1 Hh Hstat Hm Hload)
    as (w' & Hrun & Hfs & _ & Hcalls).
  rewrite Hfolder in Hcalls.
  exists w'. split; [exact Hrun|]. split; [now apply Stat_ENOENT|].
  split; [rewrite Hfs; now apply (Stat_grown_dir _ (fsys w))|exact Hcalls].
Qed.

(** X12: when the folder is missing and cannot be made, bootstrap returns
    the error of [MkdirAll] wrapped in [failed to ensure azgit config
    directory exists: ] and stops there: Git's configuration is not
    loaded and nothing is saved. *)
Theorem failed_mkdir_stops_bootstrap (w : World) (home : path) (e : error) :
  env_home w = Some home ->
  Stat (configPath home) (fsys w) = inl ENOENT ->
  Stat (folderPath home) (fsys w) = inl ENOENT ->
  MkdirAll (folderPath home) (fsys w) = inl e ->
  exists w',
    initializeAzGitConfig w
    = Done (Some (Errorf "failed to ensure azgit config directory exists: " e)) w' /\
    stdout w' = stdout w /\
    calls w' = calls w ++
      [call_Stat (configPath home); call_Stat (folderPath home);
       call_MkdirAll (folderPath home)].
Proof.
  intros Hh Hstat Hfolder Hm.
  rewrite (initializeAzGitConfig_run w home Hh), Hstat. cbv zeta.
  rewrite (ensureAzGitFolderExists_run (with_call (call_Stat (configPath home)) w) home Hh).
  cbv zeta. autorewrite with world. rewrite Hfolder, Hm.
  eexists; split; [reflexivity|]. autorewrite with world.
  split; [reflexivity|]. now rewrite <- !app_assoc.
Qed.

(** X13: the root command shows its help only after bootstrap returned
    nil: over an existing store the help runs right after the [Stat]
    that found it; when Git's configuration cannot be loaded the command
    returns the error of bootstrap as it is and the help does not run. *)
Theorem root_command_bootstraps_first
    (w : World) (home : path) (cmd_Help : M (option error)) :
  env_home w = Some home ->
  (forall n, nodes (fsys w) !! configPath home = Some n ->
     rootCmd_RunE cmd_Help w = cmd_Help (with_call (call_Stat (configPath home)) w)) /\
  (forall cause,
     Stat (configPath home) (fsys w) = inl ENOENT ->
     succeeded (MkdirAll (folderPath home) (fsys w)) = true ->
     loadFile (gitConfigPath home) (fsys w) = inl cause ->
     exists w', rootCmd_RunE cmd_Help w
                = Done (Some (Errorf "failed to read ~/.gitconfig: " cause)) w' /\
       stdout w' = stdout w).
Proof.
  intros Hh. split.
  - intros n Hn. unfold rootCmd_RunE, bind.
    rewrite (initializeAzGitConfig_present w home Hh); [reflexivity|].
    now apply Stat_present in Hn.
  - intros cause Hstat Hdir Hload.
    destruct (MkdirAll (folderPath home) (fsys w)) as [e|f1] eqn:Hm; [discriminate|].
    destruct (bootstrap_read_failure w home cause f1 Hh Hstat Hm Hload)
      as (w' & Hrun & _ & Hout & _).
    exists w'. unfold rootCmd_RunE, bind. rewrite Hrun. now split.
Qed.

(** X14: a bootstrap that reaches the write has stat'ed the store, then
    the folder, made the folder if it was missing, loaded
    [~/.gitconfig] once and saved the store once, in that order, whether
    or not the write went through. *)
Theorem bootstrap_call_order (w : World) (home : path) (gitCfg : IniFile) :
  env_home w = Some home ->
  Stat (configPath home) (fsys w) = inl ENOENT ->
  loadFile (gitConfigPath home) (fsys w) = inr gitCfg ->
  succeeded (MkdirAll (folderPath home) (fsys w)) = true ->
  exists r w', initializeAzGitConfig w = Done r w' /\
    calls w' = calls w ++
      [call_Stat (configPath home); call_Stat (folderPath home)]
      ++ match Stat (folderPath home) (fsys w) with
         | inl ENOENT => [call_MkdirAll (folderPath home)]
         | _ => []
         end
      ++ [call_Load (gitConfigPath home); call_SaveTo (configPath home)].
Proof.
  intros Hh Hstat Hload Hdir.
  destruct (MkdirAll (folderPath home) (fsys w)) as [e|f1] eqn:Hm; [discriminate|].
  destruct (bootstrap_reaches_write w home gitCfg f1 Hh Hstat Hload Hm)
    as (w' & Hrun & _ & _ & _ & Hcalls).
  eexists _, w'. split; [exact Hrun|exact Hcalls].
Qed.

(** X15: a store that cannot be looked at passes for an existing one and
    then fails the listing: when the [Stat] of the store fails with
    anything but not-exist, bootstrap returns nil, and [listIdentities]
    right after returns the failure to open the store, wrapped, having
    printed nothing. *)
Theorem unreachable_store_fails_the_listing (w : World) (home : path) (e : Errno) :
  env_home w = Some home ->
  Stat (configPath home) (fsys w) = inl e ->
  e <> ENOENT ->
  exists w1 w2,
    initializeAzGitConfig w = Done None w1 /\
    listIdentities w1
    = Done (Some (Errorf "failed to read azgit config: "
                    (PathError "open" (configPath home) e))) w2 /\
    fsys w2 = fsys w /\ stdout w2 = stdout w.
Proof.
  intros Hh Hs Hne.
  exists (with_call (call_Stat (configPath home)) w). eexists.
  split; [apply initializeAzGitConfig_present; [exact Hh|]; rewrite Hs; congruence|].
  rewrite (listIdentities_run _ home) by exact Hh. cbv zeta. autorewrite with world.
  unfold loadFile, ReadFile. rewrite (Stat_error_resolve _ _ _ Hs Hne).
  split; [reflexivity|]. now autorewrite with world.
Qed.

End FurtherProperties.

(** * The program on concrete worlds *)

Import Run.
#[local] Existing Instance RefCodec.codec.

Lemma eio_free (f : list (path * node)) (p : path) : p ∉ eio (fs_of f).
Proof. apply not_elem_of_empty. Qed.

(** Bootstrap from Alice's Git configuration, then the listing. *)
Example bootstrap_then_list_alice :
  exists w1 w2,
    initializeAzGitConfig (world_of fs_fresh) = Done None w1 /\
    nodes (fsys w1) !! configPath home = Some (RegFile store_alice) /\
    listIdentities w1 = Done None w2 /\
    stdout w2 = [ "List of Identities:" +:+ nl;
                  nl +:+ "Identity [default]:" +:+ nl +:+
                  tab +:+ "Name: Alice" +:+ nl +:+
                  tab +:+ "Email: alice@example.com" +:+ nl +:+ nl ].
Proof.
  destruct (initializeAzGitConfig (world_of fs_fresh)) as [r w1|msg] eqn:E1;
    vm_compute in E1; [|discriminate].
  injection E1 as <- <-. eexists _, _. split; [reflexivity|].
  split; [vm_compute; reflexivity|]. split; vm_compute; reflexivity.
Qed.

(** The spec's second scenario: a store with [default] (Bob) and a
    section without keys lists one block. *)
Example list_skips_keyless_section :
  exists w',
    listIdentities (world_of (fs_with
      ("[default]" +:+ nl +:+ "name = Bob" +:+ nl +:+ "email = bob@x.com" +:+ nl +:+
       "[empty]" +:+ nl))) = Done None w' /\
    stdout w' = [ "List of Identities:" +:+ nl;
                  nl +:+ "Identity [default]:" +:+ nl +:+
                  tab +:+ "Name: Bob" +:+ nl +:+
                  tab +:+ "Email: bob@x.com" +:+ nl +:+ nl ].
Proof. eexists. split; vm_compute; reflexivity. Qed.

(** With a regular file in the place of [.config], the [Stat] of the
    store fails with [ENOTDIR], which is not not-exist: bootstrap reports
    success and has done nothing. *)
Example bootstrap_blocked_by_a_file :
  Stat (configPath home) fs_blocked = inl ENOTDIR /\
  initializeAzGitConfig (world_of fs_blocked)
  = Done None (with_call (call_Stat (configPath home)) (world_of fs_blocked)).
Proof. split; vm_compute; reflexivity. Qed.

Lemma bootstrap_creates_default_store_witness :
  exists w' store dflt,
    initializeAzGitConfig (world_of fs_fresh) = Done None w' /\
    nodes (fsys w') !! configPath home = Some (RegFile (ini_write store)) /\
    List.filter (fun s => String.eqb (sec_name s) "default") (Sections store) = [dflt] /\
    lookupKey "name" (sec_keys dflt) = Some "Alice" /\
    lookupKey "email" (sec_keys dflt) = Some "alice@example.com" /\
    Key_String dflt "signingkey" = "" /\
    Key_String dflt "gpgsign" = "".
Proof.
  destruct (@bootstrap_creates_default_store RefCodec.codec
              (world_of fs_fresh) home gitCfg_alice)
    as (w' & store & dflt & Hrun & Hnode & Hone & _ & Hname & Hemail & Hkey & Hgpg).
  - reflexivity.
  - vm_compute. reflexivity.
  - vm_compute. reflexivity.
  - vm_compute. reflexivity.
  - apply eio_free.
  - exists w', store, dflt. repeat split; assumption.
Defined.

Lemma bootstrap_optional_keys_witness :
  exists w' store dflt,
    initializeAzGitConfig (world_of fs_fresh) = Done None w' /\
    nodes (fsys w') !! configPath home = Some (RegFile (ini_write store)) /\
    findSection "default" store = Some dflt /\
    lookupKey "name" (sec_keys dflt) = Some "Alice" /\
    lookupKey "signingkey" (sec_keys dflt) = None /\
    lookupKey "gpgsign" (sec_keys dflt) = None.
Proof.
  destruct (@bootstrap_optional_keys RefCodec.codec
              (world_of fs_fresh) home gitCfg_alice)
    as (w' & store & dflt & Hrun & Hnode & Hfind & Hname & _ & Hkey & Hgpg & _).
  - reflexivity.
  - vm_compute. reflexivity.
  - vm_compute. reflexivity.
  - vm_compute. reflexivity.
  - apply eio_free.
  - exists w', store, dflt. repeat split; assumption.
Defined.

Lemma bootstrap_idempotent_witness :
  exists w1 w2,
    initializeAzGitConfig (world_of (fs_with store_alice)) = Done None w1 /\
    initializeAzGitConfig w1 = Done None w2 /\
    fsys w2 = fs_with store_alice /\
    nodes (fsys w2) !! configPath home = Some (RegFile store_alice).
Proof.
  destruct (@bootstrap_idempotent RefCodec.codec
              (world_of (fs_with store_alice)) home store_alice)
    as (w1 & w2 & Hrun1 & _ & _ & _ & Hrun2 & Hfs & _ & Hnode).
  - reflexivity.
  - vm_compute. reflexivity.
  - exists w1, w2. repeat split; assumption.
Defined.

Lemma bootstrap_failure_leaves_no_store_witness :
  exists w',
    initializeAzGitConfig (world_of fs_bare)
    = Done (Some (Errorf "failed to read ~/.gitconfig: "
                    (PathError "open" (gitConfigPath home) ENOENT))) w' /\
    nodes (fsys w') !! configPath home = None.
Proof.
  destruct (@bootstrap_failure_leaves_no_store RefCodec.codec (world_of fs_bare) home)
    as (Hfail & _).
  - reflexivity.
  - apply Hfail.
    + vm_compute. reflexivity.
    + vm_compute. reflexivity.
    + vm_compute. reflexivity.
Defined.

Lemma stat_failure_reads_as_present_witness :
  initializeAzGitConfig (world_of fs_denied)
  = Done None (with_call (call_Stat (configPath home)) (world_of fs_denied)) /\
  ensureAzGitFolderExists (world_of fs_denied)
  = Done None (with_call (call_Stat (folderPath home)) (world_of fs_denied)).
Proof.
  destruct (@stat_failure_reads_as_present RefCodec.codec (world_of fs_denied) home EACCES)
    as (Hinit & Hdir).
  - reflexivity.
  - discriminate.
  - split; [apply Hinit|apply Hdir]; vm_compute; reflexivity.
Defined.

Lemma listing_block_format_witness :
  listSection
    {| sec_name := "work";
       sec_keys := [("name", "Bob"); ("email", "bob@x.com"); ("signingkey", "ABCD")] |}
    (world_of fs_bare)
  = Done tt (with_write
      (nl +:+ "Identity [work]:" +:+ nl +:+
       tab +:+ "Name: Bob" +:+ nl +:+
       tab +:+ "Email: bob@x.com" +:+ nl +:+
       tab +:+ "Signing Key: ABCD" +:+ nl +:+ nl) (world_of fs_bare)) /\
  exists w', listIdentities (world_of (fs_with store_alice)) = Done None w' /\
    stdout w' = [ "List of Identities:" +:+ nl;
                  nl +:+ "Identity [default]:" +:+ nl +:+
                  tab +:+ "Name: Alice" +:+ nl +:+
                  tab +:+ "Email: alice@example.com" +:+ nl +:+ nl ].
Proof.
  destruct (@listing_block_format RefCodec.codec) as (Hblock & Hscenario). split.
  - apply Hblock. reflexivity.
  - apply (Hscenario (world_of (fs_with store_alice)) home cfg_alice
             [ {| sec_name := DefaultSection; sec_keys := [] |} ]).
    + reflexivity.
    + vm_compute. reflexivity.
    + repeat constructor.
    + reflexivity.
Defined.

Lemma listing_follows_declaration_order_witness :
  exists w', listIdentities (world_of (fs_with store_team)) = Done None w' /\
    stdout w' = [ "List of Identities:" +:+ nl;
                  nl +:+ "Identity [DEFAULT]:" +:+ nl +:+
                  tab +:+ "Name: Global" +:+ nl +:+
                  tab +:+ "Email: " +:+ nl +:+ nl;
                  nl +:+ "Identity [work]:" +:+ nl +:+
                  tab +:+ "Name: Bob" +:+ nl +:+
                  tab +:+ "Email: bob@x.com" +:+ nl +:+
                  tab +:+ "Signing Key: ABCD" +:+ nl +:+ nl;
                  nl +:+ "Identity [home]:" +:+ nl +:+
                  tab +:+ "Name: " +:+ nl +:+
                  tab +:+ "Email: me@home" +:+ nl +:+ nl ].
Proof.
  destruct (@listing_follows_declaration_order RefCodec.codec
              (world_of (fs_with store_team)) home cfg_team)
    as (w' & Hrun & Hout & _).
  - reflexivity.
  - vm_compute. reflexivity.
  - exists w'. split; [exact Hrun|]. rewrite Hout. reflexivity.
Defined.

Lemma listing_prints_title_first_witness :
  exists w', listCmd_RunE (world_of (fs_with store_blank)) = Done None w' /\
    stdout w' = [ "List of Identities:" +:+ nl ].
Proof.
  destruct (@listing_prints_title_first RefCodec.codec
              (world_of (fs_with store_blank)) home cfg_blank)
    as (w' & blocks & Hrun & Hout & Hnone).
  - reflexivity.
  - vm_compute. reflexivity.
  - exists w'. split; [exact Hrun|]. rewrite Hout, Hnone; [reflexivity|].
    intros s [<-|[<-|[<-|[]]]]; reflexivity.
Defined.

Lemma list_wraps_load_failure_witness :
  listCmd_RunE (world_of fs_fresh)
  = Done (Some (Errorf "failed to read azgit config: "
                  (PathError "open" (configPath home) ENOENT)))
         (with_call (call_Load (configPath home)) (world_of fs_fresh)).
Proof.
  apply (@list_wraps_load_failure RefCodec.codec (world_of fs_fresh) home).
  - reflexivity.
  - vm_compute. reflexivity.
Defined.

(** C8, as stated: the failure of the load is not what [list] returns.
    With no store file the load fails with [open ...: ENOENT], and the
    command returns another error, which wraps it. *)
Lemma list_does_not_return_load_failure_as_is :
  loadFile (configPath home) (fsys (world_of fs_fresh))
  = inl (PathError "open" (configPath home) ENOENT) /\
  forall w', listCmd_RunE (world_of fs_fresh)
             <> Done (Some (PathError "open" (configPath home) ENOENT)) w'.
Proof.
  split; [vm_compute; reflexivity|].
  intros w'. unfold listCmd_RunE.
  rewrite (listIdentities_run (world_of fs_fresh) home eq_refl).
  replace (loadFile (configPath home) (fsys (world_of fs_fresh)))
    with (@inl error IniFile (PathError "open" (configPath home) ENOENT))
    by (vm_compute; reflexivity).
  discriminate.
Qed.

(** ** The further properties on concrete worlds *)

Lemma home_undefined_panics_witness :
  initializeAzGitConfig world_homeless
  = Panic "Failed to get user's home directory: $HOME is not defined" /\
  listIdentities world_homeless
  = Panic "Failed to get user's home directory: $HOME is not defined" /\
  rootCmd_RunE help_stub world_homeless
  = Panic "Failed to get user's home directory: $HOME is not defined".
Proof.
  destruct (@home_undefined_panics RefCodec.codec world_homeless help_stub)
    as (Hinit & Hlist & Hroot & _).
  - reflexivity.
  - repeat split; assumption.
Defined.

Lemma ensure_creates_the_folder_witness :
  exists w1, ensureAzGitFolderExists (world_of fs_fresh) = Done None w1 /\
    Stat (folderPath home) (fsys w1) = inr Dir /\
    nodes (fsys w1) !! gitConfigPath home = Some (RegFile gitconfig_alice).
Proof.
  destruct (@ensure_creates_the_folder (world_of fs_fresh) home)
    as (w1 & Hrun & Hdir & _ & Hkeep & _).
  - reflexivity.
  - vm_compute. reflexivity.
  - vm_compute. reflexivity.
  - exists w1. split; [exact Hrun|]. split; [exact Hdir|].
    apply Hkeep. vm_compute. reflexivity.
Defined.

Lemma ensure_twice_witness :
  exists w1, ensureAzGitFolderExists (world_of fs_fresh) = Done None w1 /\
    ensureAzGitFolderExists w1
    = Done None (with_call (call_Stat (folderPath home)) w1).
Proof.
  destruct (ensureAzGitFolderExists_ok (world_of fs_fresh) home)
    as (w1 & Hrun & _).
  - reflexivity.
  - vm_compute. reflexivity.
  - exists w1. split; [exact Hrun|].
    apply (@ensure_twice (world_of fs_fresh) w1 home); [reflexivity|exact Hrun].
Defined.

Lemma ensure_fails_only_in_mkdir_witness :
  ensureAzGitFolderExists (world_of fs_file_folder)
  = Done None (with_call (call_Stat (folderPath home)) (world_of fs_file_folder)).
Proof.
  destruct (@ensure_fails_only_in_mkdir (world_of fs_file_folder) home) as (_ & Hfile).
  - reflexivity.
  - apply (Hfile ""). vm_compute. reflexivity.
Defined.

Lemma fetch_identity_of_gitconfig_witness :
  exists r,
    fetchDefaultGitIdentity (world_of fs_anonymous)
    = Done r (with_call (call_Load (gitConfigPath home)) (world_of fs_anonymous)) /\
    snd r = None /\
    Name (fst r) = "" /\ Email (fst r) = "" /\ SigningKey (fst r) = "" /\
    GPGSign (fst r) = "".
Proof.
  destruct (@fetch_identity_of_gitconfig RefCodec.codec (world_of fs_anonymous) home)
    as (r & Hrun & _ & Hok).
  - reflexivity.
  - destruct (Hok gitCfg_anonymous) as (Herr & _ & _ & Huser & Hcommit).
    + vm_compute. reflexivity.
    + destruct Huser as (Hn & He & Hs); [reflexivity|].
      exists r. repeat split; try assumption. apply Hcommit. reflexivity.
Defined.

Lemma bootstrap_then_list_witness :
  exists w1 w2,
    initializeAzGitConfig (world_of fs_fresh) = Done None w1 /\
    listIdentities w1 = Done None w2 /\
    stdout w2 = [ "List of Identities:" +:+ nl;
                  nl +:+ "Identity [default]:" +:+ nl +:+
                  tab +:+ "Name: Alice" +:+ nl +:+
                  tab +:+ "Email: alice@example.com" +:+ nl +:+ nl ].
Proof.
  destruct (@bootstrap_then_list RefCodec.codec (world_of fs_fresh) home gitCfg_alice)
    as (w1 & w2 & Hrun1 & Hrun2 & _ & Hout).
  - reflexivity.
  - vm_compute. reflexivity.
  - vm_compute. reflexivity.
  - vm_compute. reflexivity.
  - apply eio_free.
  - vm_compute. reflexivity.
  - exists w1, w2. split; [exact Hrun1|]. split; [exact Hrun2|].
    rewrite Hout. reflexivity.
Defined.

Lemma list_is_read_only_witness :
  exists r w', listIdentities (world_of (fs_with store_team)) = Done r w' /\
    fsys w' = fs_with store_team /\
    calls w' = [call_Load (configPath home)].
Proof.
  destruct (@list_is_read_only RefCodec.codec (world_of (fs_with store_team)) home)
    as (r & w' & Hrun & Hfs & _ & Hcalls & _).
  - reflexivity.
  - exists r, w'. repeat split; assumption.
Defined.

Lemma bootstrap_keeps_what_exists_witness :
  exists r w', initializeAzGitConfig (world_of fs_fresh) = Done r w' /\
    stdout w' = [] /\
    nodes (fsys w') !! gitConfigPath home = Some (RegFile gitconfig_alice).
Proof.
  destruct (@bootstrap_keeps_what_exists RefCodec.codec (world_of fs_fresh) home)
    as (r & w' & Hrun & Hout & _ & Hkeep & _).
  - reflexivity.
  - exists r, w'. split; [exact Hrun|]. split; [exact Hout|].
    apply Hkeep. vm_compute. reflexivity.
Defined.

Lemma bootstrap_success_is_final_witness :
  exists w1 w2,
    initializeAzGitConfig (world_of fs_fresh) = Done None w1 /\
    initializeAzGitConfig w1 = Done None w2 /\
    fsys w2 = fsys w1 /\ stdout w2 = stdout w1.
Proof.
  destruct (@bootstrap_writes_defaultStore RefCodec.codec
              (world_of fs_fresh) home gitCfg_alice) as (w1 & Hrun & _).
  - reflexivity.
  - vm_compute. reflexivity.
  - vm_compute. reflexivity.
  - vm_compute. reflexivity.
  - apply eio_free.
  - destruct (@bootstrap_success_is_final RefCodec.codec (world_of fs_fresh) w1 home)
      as (w2 & Hrun2 & Hfs & Hout & _); [reflexivity|exact Hrun|].
    exists w1, w2. repeat split; assumption.
Defined.

Lemma interrupted_write_is_not_repaired_witness :
  exists w1,
    initializeAzGitConfig (world_of fs_eio)
    = Done (Some (PathError "write" (configPath home) EIO)) w1 /\
    nodes (fsys w1) !! configPath home = Some (RegFile "") /\
    initializeAzGitConfig w1
    = Done None (with_call (call_Stat (configPath home)) w1).
Proof.
  apply (@interrupted_write_is_not_repaired RefCodec.codec
           (world_of fs_eio) home gitCfg_alice).
  - reflexivity.
  - vm_compute. reflexivity.
  - vm_compute. reflexivity.
  - vm_compute. reflexivity.
  - vm_compute. reflexivity.
Defined.

Lemma failed_read_leaves_the_folder_witness :
  exists w',
    initializeAzGitConfig (world_of fs_bare)
    = Done (Some (Errorf "failed to read ~/.gitconfig: "
                    (PathError "open" (gitConfigPath home) ENOENT))) w' /\
    nodes fs_bare !! folderPath home = None /\
    Stat (folderPath home) (fsys w') = inr Dir.
Proof.
  destruct (@failed_read_leaves_the_folder RefCodec.codec (world_of fs_bare) home
              (PathError "open" (gitConfigPath home) ENOENT))
    as (w' & Hrun & Hnone & Hdir & _).
  - reflexivity.
  - vm_compute. reflexivity.
  - vm_compute. reflexivity.
  - vm_compute. reflexivity.
  - vm_compute. reflexivity.
  - exists w'. repeat split; assumption.
Defined.

Lemma failed_mkdir_stops_bootstrap_witness :
  exists w',
    initializeAzGitConfig (world_of fs_locked)
    = Done (Some (Errorf "failed to ensure azgit config directory exists: "
                    (PathError "mkdir" (home ++ [".config"]) EACCES))) w' /\
    calls w' = [call_Stat (configPath home); call_Stat (folderPath home);
                call_MkdirAll (folderPath home)].
Proof.
  destruct (@failed_mkdir_stops_bootstrap RefCodec.codec (world_of fs_locked) home
              (PathError "mkdir" (home ++ [".config"]) EACCES))
    as (w' & Hrun & _ & Hcalls).
  - reflexivity.
  - vm_compute. reflexivity.
  - vm_compute. reflexivity.
  - vm_compute. reflexivity.
  - exists w'. split; assumption.
Defined.

Lemma root_command_bootstraps_first_witness :
  rootCmd_RunE help_stub (world_of (fs_with store_alice))
  = help_stub (with_call (call_Stat (configPath home)) (world_of (fs_with store_alice))) /\
  exists w',
    rootCmd_RunE help_stub (world_of fs_bare)
    = Done (Some (Errorf "failed to read ~/.gitconfig: "
                    (PathError "open" (gitConfigPath home) ENOENT))) w' /\
    stdout w' = [].
Proof.
  split.
  - destruct (@root_command_bootstraps_first RefCodec.codec
                (world_of (fs_with store_alice)) home help_stub) as (Hhelp & _).
    + reflexivity.
    + apply (Hhelp (RegFile store_alice)). vm_compute. reflexivity.
  - destruct (@root_command_bootstraps_first RefCodec.codec
                (world_of fs_bare) home help_stub) as (_ & Hfail).
    + reflexivity.
    + apply Hfail; vm_compute; reflexivity.
Defined.

Lemma bootstrap_call_order_witness :
  exists r w', initializeAzGitConfig (world_of fs_fresh) = Done r w' /\
    calls w' = [call_Stat (configPath home); call_Stat (folderPath home);
                call_MkdirAll (folderPath home);
                call_Load (gitConfigPath home); call_SaveTo (configPath home)].
Proof.
  destruct (@bootstrap_call_order RefCodec.codec (world_of fs_fresh) home gitCfg_alice)
    as (r & w' & Hrun & Hcalls).
  - reflexivity.
  - vm_compute. reflexivity.
  - vm_compute. reflexivity.
  - vm_compute. reflexivity.
  - exists r, w'. split; [exact Hrun|]. rewrite Hcalls. vm_compute. reflexivity.
Defined.

Lemma unreachable_store_fails_the_listing_witness :
  exists w1 w2,
    initializeAzGitConfig (world_of fs_denied) = Done None w1 /\
    listIdentities w1
    = Done (Some (Errorf "failed to read azgit config: "
                    (PathError "open" (configPath home) EACCES))) w2 /\
    stdout w2 = [].
Proof.
  destruct (@unreachable_store_fails_the_listing RefCodec.codec
              (world_of fs_denied) home EACCES)
    as (w1 & w2 & Hrun1 & Hrun2 & _ & Hout).
  - reflexivity.
  - vm_compute. reflexivity.
  - discriminate.
  - exists w1, w2. repeat split; assumption.
Defined.
